(** * MoodMorphAPI: the sentiment and chat gateways of app.py, app1.py and main.py

    A shallow embedding of the three Flask services and the properties of
    their request handlers.

    - Python [str] values are modelled by [string]; one [ascii] is one code
      point below 256 (Latin-1), on which [str.strip] and [str.lower] are
      closed.
    - The objects that [request.get_json()] and [response.json()] return are
      the values of type [json]; a [dict] is an association list in insertion
      order, looked up by its first matching key.
    - A handler runs in the monad [M]: it reads the module globals, appends to
      a trace of events (console lines and outbound HTTP posts) and either
      returns a value or raises a Python exception.
    - The provider is a function from the arguments of [requests.post] to
      what the call does: refuse the payload before sending, send and fail,
      or return a reply. The trace holds a request only when it was sent.
    - Exception texts are those of CPython 3.12; [response.json()] raises the
      [JSONDecodeError] of requests 2.27 and later, which is a
      [RequestException]. *)

From Stdlib Require Import ZArith List String Ascii Bool Lia DecimalString.
From Stdlib Require Import PrimFloat.
Import ListNotations.
Local Open Scope string_scope.
Local Open Scope Z_scope.

Set Implicit Arguments.
Set Warnings "-register-all".

(** ** Python strings *)

Module PyStr.

Definition dq : string := String (ascii_of_nat 34) EmptyString.
Definition sq : string := String (ascii_of_nat 39) EmptyString.
Definition nl : string := String (ascii_of_nat 10) EmptyString.

Definition code (c : ascii) : Z := Z.of_nat (nat_of_ascii c).

(** [str.isspace] on one code point below 256: TAB..CR, FS..US, space, NEL
    and the no-break space. *)
Definition isspace (c : ascii) : bool :=
  let n := code c in
  ((9 <=? n) && (n <=? 13)) || ((28 <=? n) && (n <=? 32))
  || (n =? 133) || (n =? 160).

(** [str.lower] on one code point below 256: A..Z and the Latin-1 capitals
    (all of 0xC0..0xDE but the multiplication sign 0xD7) move up by 32. *)
Definition lower_char (c : ascii) : ascii :=
  let n := code c in
  if ((65 <=? n) && (n <=? 90))
     || ((192 <=? n) && (n <=? 222) && negb (n =? 215))
  then ascii_of_nat (Z.to_nat (n + 32))
  else c.

Fixpoint lower (s : string) : string :=
  match s with
  | EmptyString => EmptyString
  | String c s' => String (lower_char c) (lower s')
  end.

Fixpoint lstrip (s : string) : string :=
  match s with
  | EmptyString => EmptyString
  | String c s' => if isspace c then lstrip s' else s
  end.

Fixpoint rstrip (s : string) : string :=
  match s with
  | EmptyString => EmptyString
  | String c s' =>
      match rstrip s' with
      | EmptyString => if isspace c then EmptyString else String c EmptyString
      | r => String c r
      end
  end.

Definition strip (s : string) : string := rstrip (lstrip s).

(** [sub in s] for two strings. *)
Fixpoint contains (sub s : string) : bool :=
  prefix sub s ||
  match s with
  | EmptyString => false
  | String _ s' => contains sub s'
  end.

Definition is_empty (s : string) : bool :=
  match s with EmptyString => true | _ => false end.

(** [str(n)] for an [int]. *)
Definition of_int (n : Z) : string := NilZero.string_of_int (Z.to_int n).

End PyStr.

(** ** Python values that come out of a JSON document *)

Inductive json : Type :=
| JNull
| JBool (b : bool)
| JInt (n : Z)
| JFloat (f : float)
| JStr (s : string)
| JArr (items : list json)
| JObj (fields : list (string * json)).

(** A subscript: [v['name']] or [v[0]]. *)
Inductive pykey : Type :=
| KStr (s : string)
| KInt (i : Z).

(** What [requests.post] hands back when the provider answered. [json_body]
    is what [response.json()] makes of the body: the parsed document, or the
    text of the decoding error when the body is not JSON. *)
Record response : Type := mkResponse {
  status_code : Z;
  reason : string;
  url : string;
  json_body : string + json
}.

(** The exception classes that can travel through the handlers. *)
Inductive exn : Type :=
| KeyError (k : pykey)
| IndexError (msg : string)
| TypeError (msg : string)
| AttributeError (msg : string)
| HTTPError (msg : string) (r : response)   (* requests.exceptions.HTTPError *)
| RequestException (msg : string)           (* ConnectionError, Timeout, ... *)
| JSONDecodeError (msg : string)            (* requests.exceptions.JSONDecodeError *)
| HTTPException (code : Z) (msg : string).  (* werkzeug: what get_json() aborts with *)

Module Py.

Import PyStr.

Definition result (A : Type) : Type := (exn + A)%type.

Fixpoint lookup (k : string) (d : list (string * json)) : option json :=
  match d with
  | [] => None
  | (k', v) :: d' => if String.eqb k k' then Some v else lookup k d'
  end.

(** [bool(v)], as [not v] and [if v] use it. *)
Definition truthy (v : json) : bool :=
  match v with
  | JNull => false
  | JBool b => b
  | JInt n => negb (n =? 0)
  | JFloat f => negb (PrimFloat.eqb f PrimFloat.zero)
  | JStr s => negb (is_empty s)
  | JArr l => match l with [] => false | _ => true end
  | JObj d => match d with [] => false | _ => true end
  end.

(** [bool(GEMINI_API_KEY)] for what [os.getenv] returned. *)
Definition truthy_env (k : option string) : bool :=
  match k with
  | None => false
  | Some s => negb (is_empty s)
  end.

(** [f"{k}"] for what [os.getenv] returned. *)
Definition format_env (k : option string) : string :=
  match k with
  | None => "None"
  | Some s => s
  end.

Definition type_name (v : json) : string :=
  match v with
  | JNull => "NoneType"
  | JBool _ => "bool"
  | JInt _ => "int"
  | JFloat _ => "float"
  | JStr _ => "str"
  | JArr _ => "list"
  | JObj _ => "dict"
  end.

Definition no_attribute (v : json) (name : string) : exn :=
  AttributeError (sq ++ type_name v ++ sq ++ " object has no attribute " ++ sq ++ name ++ sq).

Definition not_subscriptable (v : json) : exn :=
  TypeError (sq ++ type_name v ++ sq ++ " object is not subscriptable").

(** [repr(k)] of a subscript, for keys written without quotes or escapes. *)
Definition repr_key (k : pykey) : string :=
  match k with
  | KStr s => sq ++ s ++ sq
  | KInt i => of_int i
  end.

(** [str(e)]. *)
Definition str_exn (e : exn) : string :=
  match e with
  | KeyError k => repr_key k
  | IndexError m | TypeError m | AttributeError m => m
  | HTTPError m _ | RequestException m | JSONDecodeError m => m
  | HTTPException _ m => m
  end.

(** [v.get(k, default)]: only a [dict] has the method. *)
Definition get (v : json) (k : string) (default : json) : result json :=
  match v with
  | JObj d => inr (match lookup k d with Some x => x | None => default end)
  | _ => inl (no_attribute v "get")
  end.

(** [l[i]] on a list, with Python's negative indices. *)
Definition list_index {A : Type} (l : list A) (i : Z) : option A :=
  let n := Z.of_nat (List.length l) in
  if (0 <=? i) && (i <? n) then nth_error l (Z.to_nat i)
  else if (i <? 0) && (- n <=? i) then nth_error l (Z.to_nat (n + i))
  else None.

Definition chars (s : string) : list ascii := list_ascii_of_string s.

(** [v[k]]. *)
Definition subscript (v : json) (k : pykey) : result json :=
  match v, k with
  | JObj d, KStr s =>
      match lookup s d with
      | Some x => inr x
      | None => inl (KeyError k)
      end
  | JObj _, KInt _ => inl (KeyError k)   (* the keys of a parsed document are strings *)
  | JArr l, KInt i =>
      match list_index l i with
      | Some x => inr x
      | None => inl (IndexError "list index out of range")
      end
  | JArr _, KStr _ =>
      inl (TypeError "list indices must be integers or slices, not str")
  | JStr s, KInt i =>
      match list_index (chars s) i with
      | Some c => inr (JStr (String c EmptyString))
      | None => inl (IndexError "string index out of range")
      end
  | JStr _, KStr _ =>
      inl (TypeError ("string indices must be integers, not " ++ sq ++ "str" ++ sq))
  | _, _ => inl (not_subscriptable v)
  end.

Definition is_str (s : string) (v : json) : bool :=
  match v with
  | JStr t => String.eqb s t
  | _ => false
  end.

(** [s in v] for a string [s]. *)
Definition contains (s : string) (v : json) : result bool :=
  match v with
  | JObj d => inr (match lookup s d with Some _ => true | None => false end)
  | JArr l => inr (existsb (is_str s) l)
  | JStr t => inr (PyStr.contains s t)
  | _ => inl (TypeError ("argument of type " ++ sq ++ type_name v ++ sq ++ " is not iterable"))
  end.

(** [v.strip()] and [v.lower()]: only a [str] has the methods. *)
Definition strip (v : json) : result string :=
  match v with
  | JStr s => inr (PyStr.strip s)
  | _ => inl (no_attribute v "strip")
  end.

Definition lower (v : json) : result string :=
  match v with
  | JStr s => inr (PyStr.lower s)
  | _ => inl (no_attribute v "lower")
  end.

End Py.

(** ** Effects: globals, trace and exceptions *)

(** What a handler does to the outside world, in order: a request that left
    for the provider, a line on the console. A console line is recorded by
    the text of its format string as the source has it. *)
Inductive event : Type :=
| Printed (line : string)
| Posted (target : string) (headers : list (string * string)) (payload : json).

(** What [requests.post] does with one call: it raises before anything is
    sent ([Refused]: for instance the [InvalidJSONError] of a payload that
    holds NaN or Infinity), it sends and fails ([Failed]: ConnectionError,
    Timeout, ...), or it returns the provider's reply. Both exceptions are
    [RequestException]s; the text is that of [str(e)]. *)
Inductive post_result : Type :=
| Refused (msg : string)
| Failed (msg : string)
| Replied (r : response).

Definition provider : Type :=
  string -> list (string * string) -> json -> post_result.

(** The body of the incoming request, as [request.get_json()] sees it: a
    parsed document, or an abort with an HTTP error (400, 415). *)
Inductive request : Type :=
| Body (j : json)
| Rejected (code : Z) (msg : string).

Section Monad.

Variable G : Type.   (* the globals of the module *)

Definition M (A : Type) : Type := G -> (exn + A) * G * list event.

Definition ret {A} (a : A) : M A := fun g => (inr a, g, []).

Definition raise {A} (e : exn) : M A := fun g => (inl e, g, []).

Definition bind {A B} (m : M A) (k : A -> M B) : M B :=
  fun g =>
    match m g with
    | (inl e, g1, t1) => (inl e, g1, t1)
    | (inr a, g1, t1) =>
        match k a g1 with
        | (r, g2, t2) => (r, g2, (t1 ++ t2)%list)
        end
    end.

(** [try: m  except ...: h e]; a clause list that does not match re-raises
    inside [h]. *)
Definition try_except {A} (m : M A) (h : exn -> M A) : M A :=
  fun g =>
    match m g with
    | (inl e, g1, t1) =>
        match h e g1 with
        | (r, g2, t2) => (r, g2, (t1 ++ t2)%list)
        end
    | (inr a, g1, t1) => (inr a, g1, t1)
    end.

Definition globals : M G := fun g => (inr g, g, []).

Definition set_globals (g' : G) : M unit := fun _ => (inr tt, g', []).

Definition emit (ev : event) : M unit := fun g => (inr tt, g, [ev]).

Definition lift {A} (r : Py.result A) : M A :=
  match r with
  | inl e => raise e
  | inr a => ret a
  end.

Definition print (line : string) : M unit := emit (Printed line).

(** [request.get_json()] / [request.json]. *)
Definition get_json (req : request) : M json :=
  match req with
  | Body j => ret j
  | Rejected code msg => raise (HTTPException code msg)
  end.

(** [requests.post(url, headers=..., json=...)]. *)
Definition requests_post (p : provider) (target : string)
    (headers : list (string * string)) (payload : json) : M response :=
  match p target headers payload with
  | Refused msg => raise (RequestException msg)
  | Failed msg =>
      bind (emit (Posted target headers payload)) (fun _ => raise (RequestException msg))
  | Replied r =>
      bind (emit (Posted target headers payload)) (fun _ => ret r)
  end.

(** [response.raise_for_status()]. *)
Definition raise_for_status (r : response) : M unit :=
  let c := status_code r in
  if (400 <=? c) && (c <? 500) then
    raise (HTTPError (PyStr.of_int c ++ " Client Error: " ++ reason r
                      ++ " for url: " ++ url r) r)
  else if (500 <=? c) && (c <? 600) then
    raise (HTTPError (PyStr.of_int c ++ " Server Error: " ++ reason r
                      ++ " for url: " ++ url r) r)
  else ret tt.

(** [response.json()]. *)
Definition response_json (r : response) : M json :=
  match json_body r with
  | inr j => ret j
  | inl msg => raise (JSONDecodeError msg)
  end.

(** Running a handler: the answer, the globals afterwards, the trace. *)
Definition answer {A} (m : M A) (g : G) : exn + A := fst (fst (m g)).
Definition globals_after {A} (m : M A) (g : G) : G := snd (fst (m g)).
Definition trace {A} (m : M A) (g : G) : list event := snd (m g).

End Monad.

Arguments ret {G A} a.
Arguments raise {G A} e.
Arguments globals {G}.
Arguments emit {G} ev.
Arguments lift {G A} r.
Arguments print {G} line.
Arguments get_json {G} req.
Arguments requests_post {G} p target headers payload.
Arguments raise_for_status {G} r.
Arguments response_json {G} r.

Declare Scope py_scope.
Delimit Scope py_scope with py.
Notation "x <- m ;; k" := (bind m (fun x => k))
  (at level 100, m at next level, right associativity) : py_scope.
Notation "m ;;; k" := (bind m (fun _ => k))
  (at level 100, right associativity) : py_scope.

Definition is_post (ev : event) : bool :=
  match ev with
  | Posted _ _ _ => true
  | Printed _ => false
  end.

(** The number of outbound calls in a trace. *)
Definition posts (t : list event) : nat := List.length (filter is_post t).

(** [jsonify({k: v})] and [jsonify({k1: v1, k2: v2})]. *)
Definition obj1 (k : string) (v : string) : json := JObj [(k, JStr v)].
Definition obj2 (k1 v1 k2 v2 : string) : json := JObj [(k1, JStr v1); (k2, JStr v2)].

(** What a view function returns: the HTTP status and the JSON body. *)
Definition reply : Type := (Z * json)%type.

Local Open Scope py_scope.

(** [v[k1][k2]...[kn]], evaluated left to right. *)
Fixpoint subscripts (v : json) (ks : list pykey) : Py.result json :=
  match ks with
  | [] => inr v
  | k :: ks' =>
      match Py.subscript v k with
      | inl e => inl e
      | inr v' => subscripts v' ks'
      end
  end.

(** The place of the text in a Gemini reply:
    [['candidates'][0]['content']['parts'][0]['text']]. *)
Definition gemini_text : list pykey :=
  [KStr "candidates"; KInt 0; KStr "content"; KStr "parts"; KInt 0; KStr "text"].

(** The request body both Gemini variants send. *)
Definition gemini_payload (message : json) (system_prompt : string) : json :=
  JObj [("contents", JArr [JObj [("parts", JArr [JObj [("text", message)]])]]);
        ("systemInstruction",
         JObj [("parts", JArr [JObj [("text", JStr system_prompt)]])])].

(** ** app.py *)

Module App.

Import PyStr.

Record config : Type := mkConfig {
  GEMINI_API_KEY : option string;
  GEMINI_API_URL : string;
  SYSTEM_PROMPT : string
}.

(** The module body: what the globals are once the file is imported, given
    [os.getenv("GEMINI_API_KEY")]. *)
Definition load (env_key : option string) : config :=
  {| GEMINI_API_KEY := env_key;
     GEMINI_API_URL :=
       "https://generativelanguage.googleapis.com/v1beta/models/gemini-2.0-flash:generateContent?key="
       ++ Py.format_env env_key;
     SYSTEM_PROMPT :=
       nl ++ "You are a highly specialized sentiment analysis model. Your only function is to analyze the following text and classify its dominant emotion as either "
       ++ dq ++ "happy" ++ dq ++ " or " ++ dq ++ "sad" ++ dq ++ "." ++ nl ++ nl
       ++ "Your response MUST be a single word, with no extra formatting, punctuation, or explanation. The only valid responses are the literal strings "
       ++ dq ++ "happy" ++ dq ++ " or " ++ dq ++ "sad" ++ dq ++ "." ++ nl |}.

Definition get_sentiment_route (p : provider) (req : request) : M config reply :=
  g <- globals ;;
  if negb (Py.truthy_env (GEMINI_API_KEY g)) then
    print "Warning: GEMINI_API_KEY not found. Returning a mock sentiment." ;;;
    body <- get_json req ;;
    m <- lift (Py.get body "message" (JStr EmptyString)) ;;
    mock_message <- lift (Py.lower m) ;;
    let sentiment :=
      if contains "good" mock_message || contains "great" mock_message
      then "happy" else "sad" in
    ret (200, obj1 "sentiment" sentiment)
  else
    data <- get_json req ;;
    invalid <- (if negb (Py.truthy data) then ret true
                else has <- lift (Py.contains "message" data) ;; ret (negb has)) ;;
    if (invalid : bool) then
      ret (400, obj1 "error" "Message is required in the request body")
    else
      user_message <- lift (Py.subscript data (KStr "message")) ;;
      try_except
        (let payload := gemini_payload user_message (SYSTEM_PROMPT g) in
         response <- requests_post p (GEMINI_API_URL g) [] payload ;;
         raise_for_status response ;;;
         response_data <- response_json response ;;
         text <- lift (subscripts response_data gemini_text) ;;
         stripped <- lift (Py.strip text) ;;
         let sentiment := lower stripped in
         ret (200, obj1 "sentiment" sentiment))
        (fun e =>
           match e with
           | HTTPError _ r =>
               print "HTTP Error calling Gemini API: {e.response.text}" ;;;
               ret (status_code r,
                    obj1 "error" ("API request failed with status " ++ of_int (status_code r)))
           | KeyError _ | IndexError _ =>
               print "Error parsing Gemini API response: {response_data}" ;;;
               ret (500, obj1 "error" "Invalid response structure from sentiment service")
           | RequestException _ | JSONDecodeError _ =>
               print "Network error calling Gemini API: {e}" ;;;
               ret (500, obj1 "error" "Failed to connect to the sentiment analysis service")
           | _ => raise e
           end).

End App.

(** ** app1.py *)

Module App1.

Import PyStr.

Record config : Type := mkConfig {
  GEMINI_API_KEY : option string;
  GEMINI_API_URL : string
}.

Definition load (env_key : option string) : config :=
  {| GEMINI_API_KEY := env_key;
     GEMINI_API_URL :=
       "https://generativelanguage.googleapis.com/v1beta/models/gemini-2.5-flash:generateContent?key="
       ++ Py.format_env env_key |}.

Definition sentiment_prompt : string :=
  "You are a highly specialized sentiment analysis model. Your only function is to analyze the following text and classify its dominant emotion as either "
  ++ dq ++ "happy" ++ dq ++ " or " ++ dq ++ "sad" ++ dq
  ++ ". Your response MUST be a single word, with no extra formatting, punctuation, or explanation. The only valid responses are the literal strings "
  ++ dq ++ "happy" ++ dq ++ " or " ++ dq ++ "sad" ++ dq ++ ".".

Definition chat_prompt : string :=
  "You are a friendly and supportive AI assistant. Keep your responses concise and encouraging.".

Definition get_sentiment_route (p : provider) (req : request) : M config reply :=
  g <- globals ;;
  if negb (Py.truthy_env (GEMINI_API_KEY g)) then
    print "Warning: API key not found. Returning a mock sentiment." ;;;
    body <- get_json req ;;
    m <- lift (Py.get body "message" (JStr EmptyString)) ;;
    lowered <- lift (Py.lower m) ;;
    let sentiment := if contains "good" lowered then "happy" else "sad" in
    ret (200, obj1 "sentiment" sentiment)
  else
    data <- get_json req ;;
    message <- lift (Py.get data "message" JNull) ;;
    if negb (Py.truthy message) then
      ret (400, obj1 "error" "Message is required")
    else
      let system_prompt := sentiment_prompt in
      try_except
        (let payload := gemini_payload message system_prompt in
         response <- requests_post p (GEMINI_API_URL g) [] payload ;;
         raise_for_status response ;;;
         response_data <- response_json response ;;
         text <- lift (subscripts response_data gemini_text) ;;
         stripped <- lift (Py.strip text) ;;
         let sentiment := lower stripped in
         ret (200, obj1 "sentiment" sentiment))
        (fun e =>
           match e with
           | HTTPError _ r =>
               print "HTTP Error calling Gemini API: {e.response.text}" ;;;
               ret (status_code r,
                    obj1 "error" ("API request failed with status " ++ of_int (status_code r)))
           | KeyError _ | IndexError _ =>
               print "Error parsing Gemini API response: {response.json()}" ;;;
               ret (500, obj1 "error" "Invalid response structure from sentiment service")
           | RequestException _ | JSONDecodeError _ =>
               print "Network error calling Gemini API: {e}" ;;;
               ret (500, obj1 "error" "Failed to connect to the sentiment analysis service")
           | _ => raise e
           end).

Definition continue_chat_route (p : provider) (req : request) : M config reply :=
  g <- globals ;;
  if negb (Py.truthy_env (GEMINI_API_KEY g)) then
    ret (200, obj1 "response"
                ("I" ++ sq ++ "m in offline mode right now, but we can chat more later!"))
  else
    data <- get_json req ;;
    message <- lift (Py.get data "message" JNull) ;;
    if negb (Py.truthy message) then
      ret (400, obj1 "error" "Message is required")
    else
      let system_prompt := chat_prompt in
      try_except
        (let payload := gemini_payload message system_prompt in
         response <- requests_post p (GEMINI_API_URL g) [] payload ;;
         raise_for_status response ;;;
         response_data <- response_json response ;;
         text <- lift (subscripts response_data gemini_text) ;;
         ai_response <- lift (Py.strip text) ;;
         ret (200, obj1 "response" ai_response))
        (fun e =>
           match e with
           | HTTPError _ r =>
               print "HTTP Error in chat: {e.response.text}" ;;;
               ret (status_code r, obj1 "error" "The chat service is currently unavailable.")
           | _ =>
               print "An unexpected error occurred in chat: {e}" ;;;
               ret (500, obj1 "error" "An unexpected error occurred.")
           end).

End App1.

(** ** main.py *)

Module Main.

Import PyStr.

Record config : Type := mkConfig {
  GEMINI_API_KEY : option string;
  GEMINI_ENDPOINT : string
}.

Definition load (env_key : option string) : config :=
  {| GEMINI_API_KEY := env_key;
     GEMINI_ENDPOINT := "https://api.gemini-pro.ai/v1/chat/completions" |}.

Definition headers (g : config) : list (string * string) :=
  [("Authorization", "Bearer " ++ Py.format_env (GEMINI_API_KEY g));
   ("Content-Type", "application/json")].

Definition payload (user_message : json) : json :=
  JObj [("model", JStr "gemini-pro");
        ("messages",
         JArr [JObj [("role", JStr "system");
                     ("content",
                      JStr "You are a sentiment classifier. Only answer 'happy' or 'sad'.")];
               JObj [("role", JStr "user"); ("content", user_message)]]);
        ("max_tokens", JInt 5)].

(** [result.get("choices", [{}])[0].get("message", {}).get("content", "")]. *)
Definition content (result : json) : Py.result json :=
  match Py.get result "choices" (JArr [JObj []]) with
  | inl e => inl e
  | inr choices =>
      match Py.subscript choices (KInt 0) with
      | inl e => inl e
      | inr first =>
          match Py.get first "message" (JObj []) with
          | inl e => inl e
          | inr message => Py.get message "content" (JStr EmptyString)
          end
      end
  end.

Definition get_sentiment (p : provider) (req : request) : M config reply :=
  g <- globals ;;
  try_except
    (data <- get_json req ;;
     user_message <- lift (Py.get data "message" (JStr EmptyString)) ;;
     if negb (Py.truthy user_message) then
       ret (400, obj1 "error" "No message provided")
     else
       response <- requests_post p (GEMINI_ENDPOINT g) (headers g) (payload user_message) ;;
       result <- response_json response ;;
       text <- lift (content result) ;;
       stripped <- lift (Py.strip text) ;;
       let sentiment := lower stripped in
       let sentiment :=
         if negb (existsb (String.eqb sentiment) ["happy"; "sad"])
         then "happy" else sentiment in
       ret (200, obj1 "sentiment" sentiment))
    (fun e => ret (500, obj2 "error" (Py.str_exn e) "sentiment" "happy")).

End Main.

(** * Vocabulary of the properties *)

(** [quiet n m]: running [m] leaves the globals as they were and posts at
    most [n] requests. *)
Definition quiet {G A} (n : nat) (m : M G A) : Prop :=
  forall g, globals_after m g = g /\ (posts (trace m g) <= n)%nat.

(** The provider answers every outbound request with [r]. *)
Definition always (p : provider) (r : response) : Prop :=
  forall target headers payload, p target headers payload = Replied r.

(** The provider cannot be reached: every request fails with text [msg]. *)
Definition unreachable (p : provider) (msg : string) : Prop :=
  forall target headers payload, p target headers payload = Failed msg.

(** [raise_for_status] raises exactly on these codes. *)
Definition error_status (c : Z) : bool := (400 <=? c) && (c <? 600).

(** A reply of the documented Gemini shape carrying [text]. *)
Definition gemini_reply (text : json) : json :=
  JObj [("candidates",
         JArr [JObj [("content", JObj [("parts", JArr [JObj [("text", text)]])])]])].

(** The run answers [status] with [body] and sends nothing to the provider. *)
Definition settles {G} (m : M G reply) (g : G) (status : Z) (body : json) : Prop :=
  answer m g = inr (status, body) /\ posts (trace m g) = 0%nat.

(** The message field is absent or the empty string. *)
Definition no_message (d : list (string * json)) : Prop :=
  Py.lookup "message" d = None \/ Py.lookup "message" d = Some (JStr EmptyString).

Definition offline_chat_text : string :=
  "I" ++ PyStr.sq ++ "m in offline mode right now, but we can chat more later!".

(** What C2 asks of a run: HTTP 400, and nothing sent to the provider. *)
Definition rejects_request {G} (m : M G reply) (g : G) : Prop :=
  (exists body, answer m g = inr (400, body)) /\ posts (trace m g) = 0%nat.

(** A provider that answers every request with [r]. *)
Definition replying (r : response) : provider := fun _ _ _ => Replied r.

(** The reply with [status] whose body is the document [j]. *)
Definition document (status : Z) (phrase : string) (j : json) : response :=
  mkResponse status phrase "https://provider.example/" (inr j).

(** A provider that cannot be reached. *)
Definition down (msg : string) : provider := fun _ _ _ => Failed msg.

(** The body [{"message": s}]. *)
Definition saying (s : string) : request := Body (JObj [("message", JStr s)]).

(** An answer that is an error reply: a 5xx status and an error string. *)
Definition error_reply (a : exn + reply) : Prop :=
  exists status d msg,
    a = inr (status, JObj d) /\ 500 <= status < 600
    /\ Py.lookup "error" d = Some (JStr msg).

(** The answer carries a sentiment field. *)
Definition has_label (a : exn + reply) : Prop :=
  exists status d v, a = inr (status, JObj d) /\ Py.lookup "sentiment" d = Some v.

(** What C4 asks of an answer: the provider's status, and an error string. *)
Definition rejected_with (status : Z) (a : exn + reply) : Prop :=
  exists msg, a = inr (status, obj1 "error" msg).

Definition app_mock_label (s : string) : string :=
  if PyStr.contains "good" (PyStr.lower s) || PyStr.contains "great" (PyStr.lower s)
  then "happy" else "sad".

Definition app1_mock_label (s : string) : string :=
  if PyStr.contains "good" (PyStr.lower s) then "happy" else "sad".

Definition happy_reply : json := gemini_reply (JStr "Happy").

(** The label main.py settles on for the text it found. *)
Definition main_label (t : string) : string :=
  let sentiment := PyStr.lower (PyStr.strip t) in
  if negb (existsb (String.eqb sentiment) ["happy"; "sad"]) then "happy" else sentiment.

(** The document [v] has the shape the path [ks] expects up to some level,
    and the key or the element asked for at that level is absent. *)
Fixpoint lacks (ks : list pykey) (v : json) : bool :=
  match ks with
  | [] => false
  | KStr s :: ks' =>
      match v with
      | JObj d =>
          match Py.lookup s d with
          | None => true
          | Some v' => lacks ks' v'
          end
      | _ => false
      end
  | KInt i :: ks' =>
      match v with
      | JArr l =>
          match Py.list_index l i with
          | None => true
          | Some v' => lacks ks' v'
          end
      | _ => false
      end
  end.

(** The document is an object in which [choices], the [message] of the first
    choice or the [content] of that message is absent. *)
Definition main_lacks (v : json) : bool :=
  match v with
  | JObj d =>
      match Py.lookup "choices" d with
      | None => true
      | Some (JArr (JObj c :: _)) =>
          match Py.lookup "message" c with
          | None => true
          | Some (JObj mm) =>
              match Py.lookup "content" mm with
              | None => true
              | Some _ => false
              end
          | Some _ => false
          end
      | Some _ => false
      end
  | _ => false
  end.

(** Every character of [s] is white space. *)
Fixpoint all_space (s : string) : bool :=
  match s with
  | EmptyString => true
  | String c s' => PyStr.isspace c && all_space s'
  end.

(** What C8 asks of the answer to a chat request: 200 and a non-empty text. *)
Definition nonempty_response (a : exn + reply) : Prop :=
  exists s, a = inr (200, obj1 "response" s) /\ s <> EmptyString.

(** A chat-completions document carrying [text]. *)
Definition completion (text : string) : list (string * json) :=
  [("choices", JArr [JObj [("message", JObj [("content", JStr text)])]])].

(** ** Vocabulary of the further properties *)

(** The outbound requests of a trace, in order. *)
Definition outbound (t : list event) : list event := filter is_post t.

(** The exception classes for which the sentiment handlers of app.py and
    app1.py have no [except] clause, and that their statements can raise. *)
Definition uncaught (e : exn) : Prop :=
  match e with
  | TypeError _ | AttributeError _ | HTTPException _ _ => True
  | _ => False
  end.

Definition is_object (v : json) : bool :=
  match v with JObj _ => true | _ => false end.

Definition is_string (v : json) : bool :=
  match v with JStr _ => true | _ => false end.

(** [response_data['candidates'][0]['content']['parts'][0]['text'].strip()]:
    what both Gemini variants take from a reply before any lower-casing. *)
Definition gemini_extract (j : json) : Py.result string :=
  match subscripts j gemini_text with
  | inl e => inl e
  | inr text => Py.strip text
  end.

(** [result.get("choices", [{}])[0].get("message", {}).get("content", "").strip()]. *)
Definition main_extract (j : json) : Py.result string :=
  match Main.content j with
  | inl e => inl e
  | inr text => Py.strip text
  end.

(** The statuses and bodies a sentiment handler of app.py or app1.py can
    answer with. *)
Definition sentiment_reply (a : reply) : Prop :=
  let (status, body) := a in
  (status = 200 /\ exists label, body = obj1 "sentiment" label)
  \/ ((status = 400 \/ status = 500 \/ error_status status = true)
      /\ exists msg, body = obj1 "error" msg).

(** The statuses and bodies the chat handler can answer with. *)
Definition chat_reply (a : reply) : Prop :=
  let (status, body) := a in
  (status = 200 /\ exists text, body = obj1 "response" text)
  \/ (status = 400 /\ body = obj1 "error" "Message is required")
  \/ (status = 500 /\ body = obj1 "error" "An unexpected error occurred.")
  \/ (error_status status = true
      /\ body = obj1 "error" "The chat service is currently unavailable.").

(** The answers main.py can give. *)
Definition main_reply (a : reply) : Prop :=
  a = (200, obj1 "sentiment" "happy")
  \/ a = (200, obj1 "sentiment" "sad")
  \/ a = (400, obj1 "error" "No message provided")
  \/ exists msg, a = (500, obj2 "error" msg "sentiment" "happy").

(** The exceptions a subscript can fail with. *)
Definition lookup_failure (e : exn) : Prop :=
  match e with
  | KeyError _ | IndexError _ | TypeError _ => True
  | _ => False
  end.

(** What the sentiment handlers of app.py and app1.py make of the extracted
    text, or of the exception the extraction raised. *)
Definition sentiment_of_extract (x : Py.result string) : exn + reply :=
  match x with
  | inr s => inr (200, obj1 "sentiment" (PyStr.lower s))
  | inl (KeyError _) | inl (IndexError _) =>
      inr (500, obj1 "error" "Invalid response structure from sentiment service")
  | inl e => inl e
  end.

(** What the chat handler makes of it. *)
Definition chat_of_extract (x : Py.result string) : exn + reply :=
  match x with
  | inr s => inr (200, obj1 "response" s)
  | inl _ => inr (500, obj1 "error" "An unexpected error occurred.")
  end.

(** What main.py makes of the extracted text, or of the exception the
    extraction raised. *)
Definition main_of_extract (x : Py.result string) : exn + reply :=
  match x with
  | inr s =>
      inr (200, obj1 "sentiment"
                  (if (PyStr.lower s =? "sad")%string then "sad" else "happy"))
  | inl e => inr (500, obj2 "error" (Py.str_exn e) "sentiment" "happy")
  end.

(** [json.dumps(v, allow_nan=False)] succeeds: no float in [v] is NaN or an
    infinity. *)
Fixpoint sendable (v : json) : bool :=
  match v with
  | JFloat f => PrimFloat.is_finite f
  | JArr items => forallb sendable items
  | JObj fields => forallb (fun kv => sendable (snd kv)) fields
  | _ => true
  end.

(** The rule of the requests library: a payload that cannot be serialised is
    refused before anything is sent. *)
Definition lawful (p : provider) : Prop :=
  forall target headers payload,
    sendable payload = false -> exists msg, p target headers payload = Refused msg.

(** What leaves for the provider when [requests.post] is called once with
    these arguments. *)
Definition sent (p : provider) (target : string) (headers : list (string * string))
    (payload : json) : list event :=
  match p target headers payload with
  | Refused _ => []
  | _ => [Posted target headers payload]
  end.

(** A provider that follows the rule of the library: it refuses what cannot
    be serialised and answers [r] to everything else. *)
Definition careful (r : response) : provider :=
  fun _ _ payload =>
    if sendable payload then Replied r
    else Refused "Out of range float values are not JSON compliant".

(** The first, the last character of [s] is white space. *)
Definition starts_with_space (s : string) : bool :=
  match s with
  | EmptyString => false
  | String c _ => PyStr.isspace c
  end.

Fixpoint ends_with_space (s : string) : bool :=
  match s with
  | EmptyString => false
  | String c EmptyString => PyStr.isspace c
  | String _ s' => ends_with_space s'
  end.

(** No character of [s] is one of A..Z. *)
Fixpoint no_capital (s : string) : bool :=
  match s with
  | EmptyString => true
  | String c s' =>
      negb ((65 <=? PyStr.code c) && (PyStr.code c <=? 90)) && no_capital s'
  end.




(** The text C10 speaks of, following its words: choices[0].message.content
    with each missing level (an absent key, an absent first choice) replaced
    by a default; [None] when a level holds a value of the wrong type. *)
Definition claimed_text (fields : list (string * json)) : option string :=
  let choices :=
    match Py.lookup "choices" fields with Some v => v | None => JArr [JObj []] end in
  match choices with
  | JArr items =>
      match (match items with [] => JObj [] | first :: _ => first end) with
      | JObj c =>
          match (match Py.lookup "message" c with Some v => v | None => JObj [] end) with
          | JObj mm =>
              match (match Py.lookup "content" mm with
                     | Some v => v
                     | None => JStr EmptyString
                     end) with
              | JStr t => Some t
              | _ => None
              end
          | _ => None
          end
      | _ => None
      end
  | _ => None
  end.

(** What C10 says at one reply body: a text that is neither happy nor sad
    gives 200 with the label happy. *)
Definition falls_back (fields : list (string * json)) (a : exn + reply) : Prop :=
  forall t, claimed_text fields = Some t ->
    PyStr.lower (PyStr.strip t) <> "happy" ->
    PyStr.lower (PyStr.strip t) <> "sad" ->
    a = inr (200, obj1 "sentiment" "happy").

(** * Properties *)

(** ** White space and [strip] *)

Lemma lstrip_empty (s : string) :
  PyStr.lstrip s = EmptyString <-> all_space s = true.
Proof.
  induction s as [| c s IH]; cbn; [tauto |].
  destruct (PyStr.isspace c); cbn; [exact IH | split; discriminate].
Qed.

Lemma rstrip_empty (s : string) :
  PyStr.rstrip s = EmptyString <-> all_space s = true.
Proof.
  induction s as [| c s IH]; cbn; [tauto |].
  destruct (PyStr.rstrip s) eqn:Hr.
  - destruct (PyStr.isspace c); cbn.
    + split; intros _; [apply IH |]; reflexivity.
    + split; discriminate.
  - split; [discriminate |]. intro H.
    apply andb_true_iff in H as [_ H]. apply IH in H. discriminate H.
Qed.

Lemma all_space_lstrip (s : string) : all_space (PyStr.lstrip s) = all_space s.
Proof.
  induction s as [| c s IH]; cbn; [reflexivity |].
  destruct (PyStr.isspace c) eqn:Hc; cbn; [exact IH | now rewrite Hc].
Qed.

Lemma strip_empty (s : string) :
  PyStr.strip s = EmptyString <-> all_space s = true.
Proof.
  unfold PyStr.strip. rewrite rstrip_empty, all_space_lstrip. tauto.
Qed.

Lemma lstrip_split (s : string) :
  exists pre, s = pre ++ PyStr.lstrip s /\ all_space pre = true.
Proof.
  induction s as [| c s (pre & Hs & Hpre)]; [exists EmptyString; split; reflexivity |].
  cbn [PyStr.lstrip]. destruct (PyStr.isspace c) eqn:Hc.
  - exists (String c pre). cbn. rewrite Hc, Hpre. split; [f_equal; exact Hs | reflexivity].
  - exists EmptyString. split; reflexivity.
Qed.

Lemma rstrip_split (s : string) :
  exists post, s = PyStr.rstrip s ++ post /\ all_space post = true.
Proof.
  induction s as [| c s (post & Hs & Hpost)]; [exists EmptyString; split; reflexivity |].
  cbn [PyStr.rstrip]. destruct (PyStr.rstrip s) eqn:Hr.
  - cbn in Hs. subst post. destruct (PyStr.isspace c) eqn:Hc.
    + exists (String c s). cbn. rewrite Hc, Hpost. split; reflexivity.
    + exists s. split; [reflexivity | exact Hpost].
  - exists post. split; [cbn; f_equal; exact Hs | exact Hpost].
Qed.

(** [strip] only takes white space away, at the two ends. *)
Lemma strip_split (s : string) :
  exists pre post,
    s = pre ++ PyStr.strip s ++ post /\ all_space pre = true /\ all_space post = true.
Proof.
  destruct (lstrip_split s) as (pre & Hs & Hpre).
  destruct (rstrip_split (PyStr.lstrip s)) as (post & Hl & Hpost).
  exists pre, post. unfold PyStr.strip. rewrite <- Hl. auto.
Qed.

Arguments Py.truthy : simpl never.
Arguments Py.truthy_env : simpl never.
Arguments Py.lookup : simpl never.
Arguments subscripts : simpl never.
Arguments PyStr.of_int : simpl never.
Arguments PyStr.strip : simpl never.
Arguments PyStr.lower : simpl never.
Arguments PyStr.contains : simpl never.
Arguments String.append : simpl never.

(** ** The frame of a program: globals kept, outbound calls counted *)

Section Frame.

Variable G : Type.



Lemma quiet_ret {A} (a : A) : quiet 0 (@ret G A a).
Proof. intro g. split; [reflexivity | apply le_n]. Qed.

Lemma quiet_raise {A} (e : exn) : quiet 0 (@raise G A e).
Proof. intro g. split; [reflexivity | apply le_n]. Qed.

Lemma quiet_globals : quiet 0 (@globals G).
Proof. intro g. split; [reflexivity | apply le_n]. Qed.

Lemma quiet_print (line : string) : quiet 0 (@print G line).
Proof. intro g. split; [reflexivity | apply le_n]. Qed.

Lemma quiet_lift {A} (r : Py.result A) : quiet 0 (@lift G A r).
Proof. destruct r; [apply quiet_raise | apply quiet_ret]. Qed.

Lemma quiet_get_json (req : request) : quiet 0 (@get_json G req).
Proof. destruct req; [apply quiet_ret | apply quiet_raise]. Qed.

Lemma quiet_response_json (r : response) : quiet 0 (@response_json G r).
Proof.
  unfold response_json. destruct (json_body r); [apply quiet_raise | apply quiet_ret].
Qed.

Lemma quiet_raise_for_status (r : response) : quiet 0 (@raise_for_status G r).
Proof.
  unfold raise_for_status.
  destruct ((400 <=? status_code r) && (status_code r <? 500)); [apply quiet_raise |].
  destruct ((500 <=? status_code r) && (status_code r <? 600));
    [apply quiet_raise | apply quiet_ret].
Qed.







(** Assigning a global is what [quiet] rules out. *)
Lemma set_globals_not_quiet (g0 g1 : G) (n : nat) :
  g0 <> g1 -> ~ quiet n (set_globals g1).
Proof. intros Hne H. destruct (H g0) as [Hg _]. cbn in Hg. congruence. Qed.

End Frame.

Create HintDb quiet.

#[local] Hint Resolve quiet_ret quiet_raise quiet_globals quiet_print quiet_lift
  quiet_get_json quiet_response_json quiet_raise_for_status : quiet.








(** ** Running a handler on a given request and provider *)

Ltac run :=
  unfold answer, trace, globals_after;
  unfold bind, try_except, requests_post, raise_for_status, response_json,
    get_json, globals, lift, print, emit, ret, raise;
  cbn.

Ltac run_with H := rewrite H; run.

Ltac split_innermost :=
  match goal with
  | |- context [match ?x with _ => _ end] =>
      lazymatch x with
      | context [match _ with _ => _ end] => fail
      | _ => destruct x eqn:?
      end
  end.

(** Case analysis on everything a run branches on, innermost first. *)
Ltac crunch :=
  unfold Py.get, Py.lower, Py.strip, Py.contains, Py.subscript;
  repeat (split_innermost; cbn in *).

Lemma truthy_of_lookup (k : string) (d : list (string * json)) (m : json) :
  Py.lookup k d = Some m -> Py.truthy (JObj d) = true.
Proof. destruct d; [discriminate | reflexivity]. Qed.

Lemma not_error_status (c : Z) :
  error_status c = false ->
  (400 <=? c) && (c <? 500) = false /\ (500 <=? c) && (c <? 600) = false.
Proof. unfold error_status. lia. Qed.

Lemma error_status_cases (c : Z) :
  error_status c = true ->
  (400 <=? c) && (c <? 500) = true
  \/ ((400 <=? c) && (c <? 500) = false /\ (500 <=? c) && (c <? 600) = true).
Proof. unfold error_status. lia. Qed.

Lemma answer_bind_globals {G A} (k : G -> M G A) (g : G) :
  answer (bind globals k) g = answer (k g) g.
Proof.
  unfold answer, bind, globals. destruct (k g g) as [[r g2] t2]. reflexivity.
Qed.

Lemma try_except_total {G A} (m : M G A) (h : exn -> M G A) (g : G) :
  (forall e g', exists a, answer (h e) g' = inr a) ->
  exists a, answer (try_except m h) g = inr a.
Proof.
  intro Hh. unfold answer, try_except.
  destruct (m g) as [[[e | a] g1] t1].
  - destruct (Hh e g1) as [a Ha]. unfold answer in Ha.
    destruct (h e g1) as [[r g2] t2]. exists a. exact Ha.
  - exists a. reflexivity.
Qed.

Lemma subscripts_gemini_reply (text : json) :
  subscripts (gemini_reply text) gemini_text = inr text.
Proof. reflexivity. Qed.

(** ** app.py, one path at a time *)

Section AppPaths.

Variables (p : provider) (g : App.config) (d : list (string * json)) (m : json).
Hypothesis online : Py.truthy_env (App.GEMINI_API_KEY g) = true.
Hypothesis message : Py.lookup "message" d = Some m.

Lemma App_unreachable (msg : string) :
  unreachable p msg ->
  answer (App.get_sentiment_route p (Body (JObj d))) g
  = inr (500, obj1 "error" "Failed to connect to the sentiment analysis service").
Proof.
  intro Hp. unfold App.get_sentiment_route. run. run_with online.
  run_with (truthy_of_lookup _ _ message). run_with message. run_with Hp.
  reflexivity.
Qed.

Lemma App_rejected (r : response) :
  always p r -> error_status (status_code r) = true ->
  answer (App.get_sentiment_route p (Body (JObj d))) g
  = inr (status_code r,
         obj1 "error" ("API request failed with status " ++ PyStr.of_int (status_code r))).
Proof.
  intros Hp Hs. unfold App.get_sentiment_route. run. run_with online.
  run_with (truthy_of_lookup _ _ message). run_with message. run_with Hp.
  destruct (error_status_cases _ Hs) as [H4 | [H4 H5]].
  - run_with H4. reflexivity.
  - run_with H4. run_with H5. reflexivity.
Qed.

Section Replied.

Variables (r : response) (j : json).
Hypothesis replied : always p r.
Hypothesis status_ok : error_status (status_code r) = false.
Hypothesis body : json_body r = inr j.

Lemma App_text (t : string) :
  subscripts j gemini_text = inr (JStr t) ->
  answer (App.get_sentiment_route p (Body (JObj d))) g
  = inr (200, obj1 "sentiment" (PyStr.lower (PyStr.strip t))).
Proof.
  intro Ht. unfold App.get_sentiment_route. run. run_with online.
  run_with (truthy_of_lookup _ _ message). run_with message. run_with replied.
  destruct (not_error_status _ status_ok) as [H4 H5].
  run_with H4. run_with H5. run_with body. run_with Ht. reflexivity.
Qed.

Lemma App_key_error (k : pykey) :
  subscripts j gemini_text = inl (KeyError k) ->
  answer (App.get_sentiment_route p (Body (JObj d))) g
  = inr (500, obj1 "error" "Invalid response structure from sentiment service").
Proof.
  intro Ht. unfold App.get_sentiment_route. run. run_with online.
  run_with (truthy_of_lookup _ _ message). run_with message. run_with replied.
  destruct (not_error_status _ status_ok) as [H4 H5].
  run_with H4. run_with H5. run_with body. run_with Ht. reflexivity.
Qed.

Lemma App_index_error (msg : string) :
  subscripts j gemini_text = inl (IndexError msg) ->
  answer (App.get_sentiment_route p (Body (JObj d))) g
  = inr (500, obj1 "error" "Invalid response structure from sentiment service").
Proof.
  intro Ht. unfold App.get_sentiment_route. run. run_with online.
  run_with (truthy_of_lookup _ _ message). run_with message. run_with replied.
  destruct (not_error_status _ status_ok) as [H4 H5].
  run_with H4. run_with H5. run_with body. run_with Ht. reflexivity.
Qed.

End Replied.

End AppPaths.

(** ** app1.py, one path at a time *)

Section App1Paths.

Variables (p : provider) (g : App1.config) (d : list (string * json)) (m : json).
Hypothesis online : Py.truthy_env (App1.GEMINI_API_KEY g) = true.
Hypothesis message : Py.lookup "message" d = Some m.
Hypothesis nonempty : Py.truthy m = true.

Lemma App1_unreachable (msg : string) :
  unreachable p msg ->
  answer (App1.get_sentiment_route p (Body (JObj d))) g
  = inr (500, obj1 "error" "Failed to connect to the sentiment analysis service").
Proof.
  intro Hp. unfold App1.get_sentiment_route. run. run_with online.
  run_with message. run_with nonempty. run_with Hp. reflexivity.
Qed.

Lemma App1_rejected (r : response) :
  always p r -> error_status (status_code r) = true ->
  answer (App1.get_sentiment_route p (Body (JObj d))) g
  = inr (status_code r,
         obj1 "error" ("API request failed with status " ++ PyStr.of_int (status_code r))).
Proof.
  intros Hp Hs. unfold App1.get_sentiment_route. run. run_with online.
  run_with message. run_with nonempty. run_with Hp.
  destruct (error_status_cases _ Hs) as [H4 | [H4 H5]].
  - run_with H4. reflexivity.
  - run_with H4. run_with H5. reflexivity.
Qed.

Lemma App1_chat_rejected (r : response) :
  always p r -> error_status (status_code r) = true ->
  answer (App1.continue_chat_route p (Body (JObj d))) g
  = inr (status_code r, obj1 "error" "The chat service is currently unavailable.").
Proof.
  intros Hp Hs. unfold App1.continue_chat_route. run. run_with online.
  run_with message. run_with nonempty. run_with Hp.
  destruct (error_status_cases _ Hs) as [H4 | [H4 H5]].
  - run_with H4. reflexivity.
  - run_with H4. run_with H5. reflexivity.
Qed.

Section Replied.

Variables (r : response) (j : json).
Hypothesis replied : always p r.
Hypothesis status_ok : error_status (status_code r) = false.
Hypothesis body : json_body r = inr j.

Ltac to_reply :=
  run; run_with online; run_with message; run_with nonempty; run_with replied;
  destruct (not_error_status _ status_ok) as [H4 H5];
  run_with H4; run_with H5; run_with body.

Lemma App1_text (t : string) :
  subscripts j gemini_text = inr (JStr t) ->
  answer (App1.get_sentiment_route p (Body (JObj d))) g
  = inr (200, obj1 "sentiment" (PyStr.lower (PyStr.strip t))).
Proof.
  intro Ht. unfold App1.get_sentiment_route. to_reply. run_with Ht. reflexivity.
Qed.

Lemma App1_key_error (k : pykey) :
  subscripts j gemini_text = inl (KeyError k) ->
  answer (App1.get_sentiment_route p (Body (JObj d))) g
  = inr (500, obj1 "error" "Invalid response structure from sentiment service").
Proof.
  intro Ht. unfold App1.get_sentiment_route. to_reply. run_with Ht. reflexivity.
Qed.

Lemma App1_index_error (msg : string) :
  subscripts j gemini_text = inl (IndexError msg) ->
  answer (App1.get_sentiment_route p (Body (JObj d))) g
  = inr (500, obj1 "error" "Invalid response structure from sentiment service").
Proof.
  intro Ht. unfold App1.get_sentiment_route. to_reply. run_with Ht. reflexivity.
Qed.

Lemma App1_chat_text (t : string) :
  subscripts j gemini_text = inr (JStr t) ->
  answer (App1.continue_chat_route p (Body (JObj d))) g
  = inr (200, obj1 "response" (PyStr.strip t)).
Proof.
  intro Ht. unfold App1.continue_chat_route. to_reply. run_with Ht. reflexivity.
Qed.

(** The chat handler catches whatever the subscript chain raises. *)
Lemma App1_chat_error (e : exn) :
  subscripts j gemini_text = inl e ->
  answer (App1.continue_chat_route p (Body (JObj d))) g
  = match e with
    | HTTPError _ r' =>
        inr (status_code r', obj1 "error" "The chat service is currently unavailable.")
    | _ => inr (500, obj1 "error" "An unexpected error occurred.")
    end.
Proof.
  intro Ht. unfold App1.continue_chat_route. to_reply. run_with Ht.
  destruct e; reflexivity.
Qed.

End Replied.

End App1Paths.

(** ** main.py, one path at a time *)

Arguments Main.content : simpl never.

Section MainPaths.

Variables (p : provider) (g : Main.config).

(** The [except Exception] clause answers whatever the body raises. *)
Lemma Main_never_raises (req : request) :
  exists status body, answer (Main.get_sentiment p req) g = inr (status, body).
Proof.
  assert (exists a, answer (Main.get_sentiment p req) g = inr a) as [[status body] H].
  { unfold Main.get_sentiment. rewrite answer_bind_globals.
    apply try_except_total. intros e g'. eexists. reflexivity. }
  exists status, body. exact H.
Qed.

Variables (d : list (string * json)) (m : json).
Hypothesis message : Py.lookup "message" d = Some m.
Hypothesis nonempty : Py.truthy m = true.

Lemma Main_unreachable (msg : string) :
  unreachable p msg ->
  answer (Main.get_sentiment p (Body (JObj d))) g = inr (500, obj2 "error" msg "sentiment" "happy").
Proof.
  intro Hp. unfold Main.get_sentiment. run. run_with message.
  run_with nonempty. run_with Hp. reflexivity.
Qed.

Variables (r : response) (j : json).
Hypothesis replied : always p r.
Hypothesis body : json_body r = inr j.

Lemma Main_text (t : string) :
  Main.content j = inr (JStr t) ->
  answer (Main.get_sentiment p (Body (JObj d))) g = inr (200, obj1 "sentiment" (main_label t)).
Proof.
  intro Ht. unfold Main.get_sentiment. run. run_with message.
  run_with nonempty. run_with replied. run_with body. run_with Ht. reflexivity.
Qed.

Lemma Main_error (e : exn) :
  Main.content j = inl e ->
  answer (Main.get_sentiment p (Body (JObj d))) g
  = inr (500, obj2 "error" (Py.str_exn e) "sentiment" "happy").
Proof.
  intro Ht. unfold Main.get_sentiment. run. run_with message.
  run_with nonempty. run_with replied. run_with body. run_with Ht. reflexivity.
Qed.

End MainPaths.

(** ** Requests that never reach the provider *)

Section Invalid.

Variables (p : provider) (d : list (string * json)).

Lemma App_missing (g : App.config) :
  Py.truthy_env (App.GEMINI_API_KEY g) = true ->
  Py.lookup "message" d = None ->
  settles (App.get_sentiment_route p (Body (JObj d))) g
    400 (obj1 "error" "Message is required in the request body").
Proof.
  intros Hk Hm. unfold settles, App.get_sentiment_route.
  destruct (Py.truthy (JObj d)) eqn:Hd;
    split; run; rewrite Hk; run; rewrite Hd; run; try rewrite Hm; reflexivity.
Qed.

Lemma App_offline (g : App.config) :
  Py.truthy_env (App.GEMINI_API_KEY g) = false ->
  no_message d ->
  settles (App.get_sentiment_route p (Body (JObj d))) g 200 (obj1 "sentiment" "sad").
Proof.
  intros Hk [Hm | Hm]; unfold settles, App.get_sentiment_route;
    split; run; rewrite Hk; run; rewrite Hm; reflexivity.
Qed.

Lemma App1_invalid (g : App1.config) :
  Py.truthy_env (App1.GEMINI_API_KEY g) = true ->
  no_message d ->
  settles (App1.get_sentiment_route p (Body (JObj d))) g
    400 (obj1 "error" "Message is required").
Proof.
  intros Hk [Hm | Hm]; unfold settles, App1.get_sentiment_route;
    split; run; rewrite Hk; run; rewrite Hm; reflexivity.
Qed.

Lemma App1_offline (g : App1.config) :
  Py.truthy_env (App1.GEMINI_API_KEY g) = false ->
  no_message d ->
  settles (App1.get_sentiment_route p (Body (JObj d))) g 200 (obj1 "sentiment" "sad").
Proof.
  intros Hk [Hm | Hm]; unfold settles, App1.get_sentiment_route;
    split; run; rewrite Hk; run; rewrite Hm; reflexivity.
Qed.

Lemma App1_chat_invalid (g : App1.config) :
  Py.truthy_env (App1.GEMINI_API_KEY g) = true ->
  no_message d ->
  settles (App1.continue_chat_route p (Body (JObj d))) g
    400 (obj1 "error" "Message is required").
Proof.
  intros Hk [Hm | Hm]; unfold settles, App1.continue_chat_route;
    split; run; rewrite Hk; run; rewrite Hm; reflexivity.
Qed.

Lemma App1_chat_offline (g : App1.config) (req : request) :
  Py.truthy_env (App1.GEMINI_API_KEY g) = false ->
  settles (App1.continue_chat_route p req) g 200 (obj1 "response" offline_chat_text).
Proof.
  intro Hk. unfold settles, App1.continue_chat_route.
  split; run; rewrite Hk; reflexivity.
Qed.

Lemma Main_invalid (g : Main.config) :
  no_message d ->
  settles (Main.get_sentiment p (Body (JObj d))) g 400 (obj1 "error" "No message provided").
Proof.
  intros [Hm | Hm]; unfold settles, Main.get_sentiment;
    split; run; rewrite Hm; reflexivity.
Qed.

End Invalid.

(** C2, amended. Take a request whose JSON object has no message field, or
    has the empty string there. main.py answers it 400 under every key and
    sends nothing to the provider. With a key configured, both handlers of
    app1.py answer it 400 and send nothing, and app.py answers 400 and sends
    nothing when the field is absent. Without a key (offline mode) the
    handlers of app.py and app1.py do not validate: the sentiment handlers
    answer 200 with the label sad, the chat handler answers 200 with its
    placeholder, and none of them sends anything. *)
Theorem C2_invalid_message :
  forall (p : provider) (key : option string) (d : list (string * json)),
    no_message d ->
    let req := Body (JObj d) in
    settles (Main.get_sentiment p req) (Main.load key)
      400 (obj1 "error" "No message provided")
    /\ (if Py.truthy_env key
        then
          settles (App1.get_sentiment_route p req) (App1.load key)
            400 (obj1 "error" "Message is required")
          /\ settles (App1.continue_chat_route p req) (App1.load key)
               400 (obj1 "error" "Message is required")
          /\ (Py.lookup "message" d = None ->
              settles (App.get_sentiment_route p req) (App.load key)
                400 (obj1 "error" "Message is required in the request body"))
        else
          settles (App.get_sentiment_route p req) (App.load key)
            200 (obj1 "sentiment" "sad")
          /\ settles (App1.get_sentiment_route p req) (App1.load key)
               200 (obj1 "sentiment" "sad")
          /\ settles (App1.continue_chat_route p req) (App1.load key)
               200 (obj1 "response" offline_chat_text)).
Proof.
  intros p key d Hd req. split.
  - now apply Main_invalid.
  - destruct (Py.truthy_env key) eqn:Hk.
    + repeat split.
      * now apply App1_invalid.
      * now apply App1_invalid.
      * now apply App1_chat_invalid.
      * now apply App1_chat_invalid.
      * now apply App_missing.
      * now apply App_missing.
    + repeat split;
        first [ now apply App_offline | now apply App1_offline
              | now apply App1_chat_offline ].
Qed.

Lemma C2_invalid_message_witness :
  no_message []
  /\ settles (App1.get_sentiment_route (down "unused") (Body (JObj [])))
       (App1.load (Some "secret")) 400 (obj1 "error" "Message is required").
Proof.
  split.
  - left. reflexivity.
  - exact (proj1 (proj2 (@C2_invalid_message (down "unused") (Some "secret") []
                           (or_introl eq_refl)))).
Defined.

(** In offline mode app.py answers a request without message 200, not 400. *)
Lemma C2_offline_not_rejected :
  ~ rejects_request
      (App.get_sentiment_route (down "unused") (Body (JObj []))) (App.load None).
Proof.
  intros [[body H] _]. vm_compute in H. discriminate H.
Qed.

(** ** Concrete providers and requests *)

(** ** C3: the provider cannot be reached *)

(** C3, amended. When the outbound call fails to connect, every sentiment
    handler answers 500 with an error string and never 200. app.py and
    app1.py answer with the error alone; main.py puts the exception text in
    the error field and adds the field sentiment = happy next to it. *)
Theorem C3_unreachable :
  forall (p : provider) (msg : string) (key : option string)
         (d : list (string * json)) (m : json),
    unreachable p msg ->
    Py.truthy_env key = true ->
    Py.lookup "message" d = Some m ->
    Py.truthy m = true ->
    let req := Body (JObj d) in
    answer (App.get_sentiment_route p req) (App.load key)
    = inr (500, obj1 "error" "Failed to connect to the sentiment analysis service")
    /\ answer (App1.get_sentiment_route p req) (App1.load key)
       = inr (500, obj1 "error" "Failed to connect to the sentiment analysis service")
    /\ answer (Main.get_sentiment p req) (Main.load key)
       = inr (500, obj2 "error" msg "sentiment" "happy").
Proof.
  intros p msg key d m Hp Hk Hm Ht req. repeat split.
  - eapply App_unreachable; eassumption.
  - eapply App1_unreachable; eassumption.
  - eapply Main_unreachable; eassumption.
Qed.

Lemma C3_unreachable_witness :
  unreachable (down "Connection refused") "Connection refused"
  /\ answer (Main.get_sentiment (down "Connection refused") (saying "hello"))
       (Main.load (Some "secret"))
     = inr (500, obj2 "error" "Connection refused" "sentiment" "happy").
Proof.
  split.
  - intros target headers payload. reflexivity.
  - refine (proj2 (proj2 (@C3_unreachable (down "Connection refused")
                            "Connection refused" (Some "secret")
                            [("message", JStr "hello")] (JStr "hello")
                            _ _ _ _))).
    + intros target headers payload. reflexivity.
    + reflexivity.
    + reflexivity.
    + reflexivity.
Defined.

(** With the provider down, the error reply of main.py carries a sentiment
    label. *)
Lemma C3_main_label_alongside_error :
  ~ (error_reply (answer (Main.get_sentiment (down "Connection refused") (saying "hello"))
                    (Main.load (Some "secret")))
     /\ ~ has_label (answer (Main.get_sentiment (down "Connection refused") (saying "hello"))
                       (Main.load (Some "secret")))).
Proof.
  intros [_ Hno]. apply Hno.
  exists 500, [("error", JStr "Connection refused"); ("sentiment", JStr "happy")],
    (JStr "happy").
  split; reflexivity.
Qed.

(** ** C4: the provider answers with an error status *)

(** C4, amended. For a provider reply with a status from 400 to 599, the
    sentiment handlers of app.py and app1.py answer with that status and the
    body error = API request failed with status <status>. main.py does not
    look at the status: two replies with the same body get the same answer. *)
Theorem C4_rejected :
  forall (p : provider) (key : option string) (d : list (string * json))
         (m : json) (r : response),
    Py.truthy_env key = true ->
    Py.lookup "message" d = Some m ->
    Py.truthy m = true ->
    always p r ->
    error_status (status_code r) = true ->
    let req := Body (JObj d) in
    let failed := obj1 "error"
                    ("API request failed with status " ++ PyStr.of_int (status_code r)) in
    answer (App.get_sentiment_route p req) (App.load key) = inr (status_code r, failed)
    /\ answer (App1.get_sentiment_route p req) (App1.load key) = inr (status_code r, failed)
    /\ (forall (p' : provider) (r' : response),
          always p' r' -> json_body r' = json_body r ->
          answer (Main.get_sentiment p' req) (Main.load key)
          = answer (Main.get_sentiment p req) (Main.load key)).
Proof.
  intros p key d m r Hk Hm Ht Hp Hs req failed. repeat split.
  - eapply App_rejected; eassumption.
  - eapply App1_rejected; eassumption.
  - intros p' r' Hp' Hb. unfold req, Main.get_sentiment. run.
    run_with Hm. run_with Ht. rewrite Hp, Hp'. run. rewrite Hb. reflexivity.
Qed.

Lemma C4_rejected_witness :
  error_status 429 = true
  /\ answer (App.get_sentiment_route
               (replying (document 429 "Too Many Requests" (JObj []))) (saying "hello"))
       (App.load (Some "secret"))
     = inr (429, obj1 "error" "API request failed with status 429").
Proof.
  split.
  - reflexivity.
  - refine (proj1 (@C4_rejected (replying (document 429 "Too Many Requests" (JObj [])))
                     (Some "secret") [("message", JStr "hello")] (JStr "hello")
                     (document 429 "Too Many Requests" (JObj []))
                     _ _ _ _ _)).
    + reflexivity.
    + reflexivity.
    + reflexivity.
    + intros target headers payload. reflexivity.
    + reflexivity.
Defined.

(** main.py answers a 503 from the provider with 200 and the label happy. *)
Lemma C4_main_ignores_status :
  ~ rejected_with 503
      (answer (Main.get_sentiment
                 (replying (document 503 "Service Unavailable"
                              (JObj [("error", JStr "overloaded")])))
                 (saying "hello"))
         (Main.load (Some "secret"))).
Proof.
  intros [msg H]. vm_compute in H. discriminate H.
Qed.

(** ** C5: the keyword heuristic of offline mode *)

Lemma App_mock (p : provider) (g : App.config) (s : string) :
  Py.truthy_env (App.GEMINI_API_KEY g) = false ->
  settles (App.get_sentiment_route p (saying s)) g 200 (obj1 "sentiment" (app_mock_label s)).
Proof.
  intro Hk. unfold settles, App.get_sentiment_route, saying.
  split; run; rewrite Hk; reflexivity.
Qed.

Lemma App1_mock (p : provider) (g : App1.config) (s : string) :
  Py.truthy_env (App1.GEMINI_API_KEY g) = false ->
  settles (App1.get_sentiment_route p (saying s)) g 200 (obj1 "sentiment" (app1_mock_label s)).
Proof.
  intro Hk. unfold settles, App1.get_sentiment_route, saying.
  split; run; rewrite Hk; reflexivity.
Qed.

(** C5, amended. Without a key the sentiment handlers answer from the
    message alone and send nothing. app.py answers happy when the lower-cased
    message contains good or great, else sad: this is great gives happy and
    this is bad gives sad. app1.py looks for good only: this is good gives
    happy, this is bad gives sad, and this is great gives sad. *)
Theorem C5_offline_heuristic :
  forall (p : provider) (key : option string),
    Py.truthy_env key = false ->
    (forall s, settles (App.get_sentiment_route p (saying s)) (App.load key)
                 200 (obj1 "sentiment" (app_mock_label s)))
    /\ (forall s, settles (App1.get_sentiment_route p (saying s)) (App1.load key)
                    200 (obj1 "sentiment" (app1_mock_label s)))
    /\ app_mock_label "this is great" = "happy"
    /\ app_mock_label "this is bad" = "sad"
    /\ app1_mock_label "this is good" = "happy"
    /\ app1_mock_label "this is bad" = "sad"
    /\ app1_mock_label "this is great" = "sad".
Proof.
  intros p key Hk. repeat split; try reflexivity.
  - now apply App_mock.
  - now apply App_mock.
  - now apply App1_mock.
  - now apply App1_mock.
Qed.

Lemma C5_offline_heuristic_witness :
  Py.truthy_env None = false
  /\ settles (App.get_sentiment_route (down "unused") (saying "this is great"))
       (App.load None) 200 (obj1 "sentiment" "happy").
Proof.
  split.
  - reflexivity.
  - exact (proj1 (@C5_offline_heuristic (down "unused") None eq_refl) "this is great").
Defined.

(** Offline, app1.py does not answer happy to this is great. *)
Lemma C5_app1_great_is_sad :
  answer (App1.get_sentiment_route (down "unused") (saying "this is great")) (App1.load None)
  <> inr (200, obj1 "sentiment" "happy").
Proof. vm_compute. discriminate. Qed.

(** ** C6: the round trip of a well-formed reply *)

Lemma main_label_empty : main_label EmptyString = "happy".
Proof. reflexivity. Qed.

Lemma starts_lstrip (s : string) : starts_with_space (PyStr.lstrip s) = false.
Proof.
  induction s as [| c s IH]; [reflexivity |].
  cbn [PyStr.lstrip]. destruct (PyStr.isspace c) eqn:Hc; [exact IH | exact Hc].
Qed.

Lemma starts_rstrip (s : string) :
  starts_with_space s = false -> starts_with_space (PyStr.rstrip s) = false.
Proof.
  destruct s as [| c s]; [reflexivity |]. cbn [starts_with_space PyStr.rstrip].
  intro Hc. destruct (PyStr.rstrip s); [rewrite Hc; exact Hc | exact Hc].
Qed.

Lemma ends_rstrip (s : string) : ends_with_space (PyStr.rstrip s) = false.
Proof.
  induction s as [| c s IH]; [reflexivity |].
  cbn [PyStr.rstrip]. destruct (PyStr.rstrip s) as [| c' r'].
  - destruct (PyStr.isspace c) eqn:Hc; [reflexivity | exact Hc].
  - exact IH.
Qed.

Lemma strip_trimmed (s : string) :
  starts_with_space (PyStr.strip s) = false /\ ends_with_space (PyStr.strip s) = false.
Proof.
  split.
  - apply starts_rstrip, starts_lstrip.
  - apply ends_rstrip.
Qed.

Lemma lower_char_not_capital (c : ascii) :
  negb ((65 <=? PyStr.code (PyStr.lower_char c))
        && (PyStr.code (PyStr.lower_char c) <=? 90)) = true.
Proof. destruct c as [[] [] [] [] [] [] [] []]; reflexivity. Qed.

Lemma lower_no_capital (s : string) : no_capital (PyStr.lower s) = true.
Proof.
  induction s as [| c s IH]; [reflexivity |].
  change (PyStr.lower (String c s)) with (String (PyStr.lower_char c) (PyStr.lower s)).
  cbn [no_capital]. now rewrite lower_char_not_capital, IH.
Qed.

(** C6. With a key configured and a message present, take a 2xx provider
    reply whose body is the document candidates[0].content.parts[0].text = t.
    app.py and app1.py answer 200 with sentiment = t.strip().lower(): the
    stripped text is t without the white space at its two ends (it neither
    starts nor ends with white space, and what was taken away is white
    space), and the label holds no capital letter A..Z. For t = Happy the
    sentiment is happy. main.py, which reads choices and not candidates,
    answers 200 with sentiment = happy to such a document whatever t is. *)
Theorem C6_round_trip :
  forall (p : provider) (key : option string) (d : list (string * json))
         (m : json) (r : response) (t : string),
    Py.truthy_env key = true ->
    Py.lookup "message" d = Some m ->
    Py.truthy m = true ->
    always p r ->
    200 <= status_code r < 300 ->
    json_body r = inr (gemini_reply (JStr t)) ->
    let req := Body (JObj d) in
    let label := PyStr.lower (PyStr.strip t) in
    answer (App.get_sentiment_route p req) (App.load key)
    = inr (200, obj1 "sentiment" label)
    /\ answer (App1.get_sentiment_route p req) (App1.load key)
       = inr (200, obj1 "sentiment" label)
    /\ (exists pre post,
          t = pre ++ PyStr.strip t ++ post
          /\ all_space pre = true /\ all_space post = true)
    /\ starts_with_space (PyStr.strip t) = false
    /\ ends_with_space (PyStr.strip t) = false
    /\ no_capital label = true
    /\ (t = "Happy" -> label = "happy")
    /\ answer (Main.get_sentiment p req) (Main.load key)
       = inr (200, obj1 "sentiment" "happy").
Proof.
  intros p key d m r t Hk Hm Ht Hp Hs Hb req label.
  assert (Hok : error_status (status_code r) = false) by (unfold error_status; lia).
  destruct (strip_trimmed t) as [Hstart Hend].
  repeat split; try assumption.
  - exact (@App_text p (App.load key) d m Hk Hm r (gemini_reply (JStr t)) Hp Hok Hb t eq_refl).
  - exact (@App1_text p (App1.load key) d m Hk Hm Ht r (gemini_reply (JStr t)) Hp Hok Hb
             t eq_refl).
  - apply strip_split.
  - apply lower_no_capital.
  - intros ->. reflexivity.
  - exact (@Main_text p (Main.load key) d m Hm Ht r (gemini_reply (JStr t)) Hp Hb
             EmptyString eq_refl).
Qed.

Lemma C6_round_trip_witness :
  200 <= 200 < 300
  /\ answer (App.get_sentiment_route (replying (document 200 "OK" happy_reply))
               (saying "what a day"))
       (App.load (Some "secret"))
     = inr (200, obj1 "sentiment" "happy").
Proof.
  split.
  - lia.
  - refine (proj1 (@C6_round_trip (replying (document 200 "OK" happy_reply))
                     (Some "secret") [("message", JStr "what a day")] (JStr "what a day")
                     (document 200 "OK" happy_reply) "Happy" _ _ _ _ _ _)).
    + reflexivity.
    + reflexivity.
    + reflexivity.
    + intros target headers payload. reflexivity.
    + cbn. lia.
    + reflexivity.
Defined.

(** ** C7: replies that lack the expected fields *)

Lemma lacks_raises (ks : list pykey) :
  forall v, lacks ks v = true ->
    (exists k, subscripts v ks = inl (KeyError k))
    \/ (exists msg, subscripts v ks = inl (IndexError msg)).
Proof.
  induction ks as [| k ks IH]; intros v H; [discriminate H |].
  destruct k as [s | i]; destruct v; try discriminate H;
    unfold subscripts; fold subscripts; cbn [lacks Py.subscript] in *.
  - destruct (Py.lookup s fields) as [v' |]; [apply IH; exact H | left; eauto].
  - destruct (Py.list_index items i) as [v' |]; [apply IH; exact H | right; eauto].
Qed.

Lemma list_index_head {A} (x : A) (l : list A) : Py.list_index (x :: l) 0 = Some x.
Proof.
  unfold Py.list_index.
  assert (H : (0 <? Z.of_nat (List.length (x :: l))) = true)
    by (apply Z.ltb_lt; cbn [List.length]; lia).
  rewrite H. reflexivity.
Qed.

Lemma main_lacks_content (v : json) :
  main_lacks v = true -> Main.content v = inr (JStr EmptyString).
Proof.
  destruct v as [| | | | | | d]; try discriminate. unfold main_lacks, Main.content, Py.get.
  destruct (Py.lookup "choices" d) as [[| | | | | [| [| | | | | | c] l] |] |];
    try discriminate; [| reflexivity].
  cbn [Py.subscript]. rewrite list_index_head.
  destruct (Py.lookup "message" c) as [[| | | | | | mm] |]; try discriminate; [| reflexivity].
  destruct (Py.lookup "content" mm); [discriminate | reflexivity].
Qed.

(** C7, amended. Take a provider reply with a status outside 400..599 whose
    body is a JSON document. When the document lacks a key or an element on
    the path candidates[0].content.parts[0].text, the sentiment handlers of
    app.py and app1.py answer 500 with error = Invalid response structure
    from sentiment service, and the chat handler answers 500 with error = An
    unexpected error occurred. main.py never lets an exception out of the
    handler; when choices, message or content is absent from the document it
    answers 200 with sentiment = happy, not an error. *)
Theorem C7_malformed_reply :
  forall (p : provider) (key : option string) (d : list (string * json))
         (m : json) (r : response) (j : json),
    Py.truthy_env key = true ->
    Py.lookup "message" d = Some m ->
    Py.truthy m = true ->
    always p r ->
    error_status (status_code r) = false ->
    json_body r = inr j ->
    let req := Body (JObj d) in
    let invalid := obj1 "error" "Invalid response structure from sentiment service" in
    (lacks gemini_text j = true ->
       answer (App.get_sentiment_route p req) (App.load key) = inr (500, invalid)
       /\ answer (App1.get_sentiment_route p req) (App1.load key) = inr (500, invalid)
       /\ answer (App1.continue_chat_route p req) (App1.load key)
          = inr (500, obj1 "error" "An unexpected error occurred."))
    /\ (main_lacks j = true ->
          answer (Main.get_sentiment p req) (Main.load key)
          = inr (200, obj1 "sentiment" "happy"))
    /\ (exists status body,
          answer (Main.get_sentiment p req) (Main.load key) = inr (status, body)).
Proof.
  intros p key d m r j Hk Hm Ht Hp Hs Hb req invalid. split; [| split].
  - intro Hl.
    destruct (lacks_raises _ _ Hl) as [[k He] | [msg He]]; repeat split.
    + eapply App_key_error; eassumption.
    + eapply App1_key_error; eassumption.
    + exact (@App1_chat_error p (App1.load key) d m Hk Hm Ht r j Hp Hs Hb _ He).
    + eapply App_index_error; eassumption.
    + eapply App1_index_error; eassumption.
    + exact (@App1_chat_error p (App1.load key) d m Hk Hm Ht r j Hp Hs Hb _ He).
  - intro Hl.
    exact (@Main_text p (Main.load key) d m Hm Ht r j Hp Hb EmptyString
             (main_lacks_content _ Hl)).
  - apply Main_never_raises.
Qed.

Lemma C7_malformed_reply_witness :
  lacks gemini_text (JObj []) = true
  /\ answer (App.get_sentiment_route (replying (document 200 "OK" (JObj []))) (saying "hello"))
       (App.load (Some "secret"))
     = inr (500, obj1 "error" "Invalid response structure from sentiment service").
Proof.
  split.
  - reflexivity.
  - refine (proj1 (proj1 (@C7_malformed_reply (replying (document 200 "OK" (JObj [])))
                            (Some "secret") [("message", JStr "hello")] (JStr "hello")
                            (document 200 "OK" (JObj [])) (JObj []) _ _ _ _ _ _) _)).
    + reflexivity.
    + reflexivity.
    + reflexivity.
    + intros target headers payload. reflexivity.
    + reflexivity.
    + reflexivity.
    + reflexivity.
Defined.

(** main.py answers an empty reply document 200 with a label, not an error
    reply. *)
Lemma C7_main_answers_label :
  ~ error_reply
      (answer (Main.get_sentiment (replying (document 200 "OK" (JObj []))) (saying "hello"))
         (Main.load (Some "secret"))).
Proof.
  intros (status & d & msg & H & Hs & _). vm_compute in H.
  injection H as H1 H2. subst status. lia.
Qed.

(** ** C8: the chat reply *)

(** C8, amended. Take a chat request with a message, answered by the provider
    with a status outside 400..599 and a document whose text (at
    candidates[0].content.parts[0].text) is the string t. With a key
    configured the handler answers 200 with response = t.strip(): t with the
    white space at its two ends removed and nothing else changed, which is
    the empty string exactly when t is all white space. Without a key the
    handler answers 200 with its fixed placeholder instead. *)
Theorem C8_chat_passthrough :
  forall (p : provider) (key : option string) (d : list (string * json))
         (m : json) (r : response) (j : json) (t : string),
    Py.lookup "message" d = Some m ->
    Py.truthy m = true ->
    always p r ->
    error_status (status_code r) = false ->
    json_body r = inr j ->
    subscripts j gemini_text = inr (JStr t) ->
    let a := answer (App1.continue_chat_route p (Body (JObj d))) (App1.load key) in
    (if Py.truthy_env key
     then a = inr (200, obj1 "response" (PyStr.strip t))
     else a = inr (200, obj1 "response" offline_chat_text))
    /\ (exists pre post,
          t = pre ++ PyStr.strip t ++ post /\ all_space pre = true /\ all_space post = true)
    /\ (PyStr.strip t = EmptyString <-> all_space t = true).
Proof.
  intros p key d m r j t Hm Ht Hp Hs Hb Hj a. split; [| split].
  - unfold a. destruct (Py.truthy_env key) eqn:Hk.
    + exact (@App1_chat_text p (App1.load key) d m Hk Hm Ht r j Hp Hs Hb t Hj).
    + exact (proj1 (@App1_chat_offline p (App1.load key) (Body (JObj d)) Hk)).
  - apply strip_split.
  - apply strip_empty.
Qed.

Lemma C8_chat_passthrough_witness :
  subscripts (gemini_reply (JStr " Hi there! ")) gemini_text = inr (JStr " Hi there! ")
  /\ answer (App1.continue_chat_route
               (replying (document 200 "OK" (gemini_reply (JStr " Hi there! "))))
               (saying "hello"))
       (App1.load (Some "secret"))
     = inr (200, obj1 "response" "Hi there!").
Proof.
  split.
  - reflexivity.
  - refine (proj1 (@C8_chat_passthrough
                     (replying (document 200 "OK" (gemini_reply (JStr " Hi there! "))))
                     (Some "secret") [("message", JStr "hello")] (JStr "hello")
                     (document 200 "OK" (gemini_reply (JStr " Hi there! ")))
                     (gemini_reply (JStr " Hi there! ")) " Hi there! " _ _ _ _ _ _)).
    + reflexivity.
    + reflexivity.
    + intros target headers payload. reflexivity.
    + reflexivity.
    + reflexivity.
    + reflexivity.
Defined.

(** A provider text of white space alone gives chat("hello") an empty
    response, with status 200. *)
Lemma C8_empty_response :
  ~ nonempty_response
      (answer (App1.continue_chat_route
                 (replying (document 200 "OK" (gemini_reply (JStr "  "))))
                 (saying "hello"))
         (App1.load (Some "secret"))).
Proof.
  intros (s & H & Hs). vm_compute in H. apply Hs.
  injection H as H. symmetry. exact H.
Qed.

(** ** C9: what a handler leaves behind *)








(** ** C10: the fallback of main.py *)

Lemma main_label_other (t : string) :
  PyStr.lower (PyStr.strip t) <> "happy" ->
  PyStr.lower (PyStr.strip t) <> "sad" ->
  main_label t = "happy".
Proof.
  intros Hh Hs. unfold main_label. cbn [existsb].
  destruct (String.eqb_spec (PyStr.lower (PyStr.strip t)) "happy"); [contradiction |].
  destruct (String.eqb_spec (PyStr.lower (PyStr.strip t)) "sad"); [contradiction |].
  reflexivity.
Qed.

Lemma main_label_sad_or_happy (t : string) :
  main_label t
  = if (PyStr.lower (PyStr.strip t) =? "sad")%string then "sad" else "happy".
Proof.
  unfold main_label. cbn [existsb].
  destruct (String.eqb_spec (PyStr.lower (PyStr.strip t)) "happy") as [-> | Hh];
    [reflexivity |].
  destruct (String.eqb_spec (PyStr.lower (PyStr.strip t)) "sad") as [-> | Hs];
    reflexivity.
Qed.

(** Where the first choice exists or choices is absent, the text the claim
    speaks of is the one the defaulting chain of main.py finds. *)
Lemma claimed_text_content (fields : list (string * json)) :
  Py.lookup "choices" fields <> Some (JArr []) ->
  claimed_text fields
  = match Main.content (JObj fields) with
    | inr (JStr t) => Some t
    | _ => None
    end.
Proof.
  intro Hne. unfold claimed_text, Main.content, Py.get.
  destruct (Py.lookup "choices" fields) as [choices |].
  - destruct choices as [| | | | s | items |]; try reflexivity.
    { cbn [Py.subscript]. destruct (Py.list_index (Py.chars s) 0); reflexivity. }
    destruct items as [| first rest]; [now elim Hne |].
    cbn [Py.subscript]. rewrite list_index_head.
    destruct first as [| | | | | | c]; try reflexivity.
    destruct (Py.lookup "message" c) as [[| | | | | | mm] |]; reflexivity.
  - cbn [Py.subscript]. rewrite list_index_head. reflexivity.
Qed.

Lemma Main_not_a_string (p : provider) (g : Main.config) (d : list (string * json))
    (m : json) (r : response) (j v : json) :
  Py.lookup "message" d = Some m ->
  Py.truthy m = true ->
  always p r ->
  json_body r = inr j ->
  Main.content j = inr v ->
  is_string v = false ->
  answer (Main.get_sentiment p (Body (JObj d))) g
  = inr (500, obj2 "error" (Py.str_exn (Py.no_attribute v "strip")) "sentiment" "happy").
Proof.
  intros Hm Ht Hp Hb Hc Hv. unfold Main.get_sentiment. run. run_with Hm.
  run_with Ht. run_with Hp. run_with Hb. run_with Hc.
  destruct v; try discriminate Hv; reflexivity.
Qed.

(** C10, amended. In main.py, for a request with a message and a provider
    reply (of any status) whose body is a JSON object: the text is
    choices[0].message.content with an absent choices, message or content
    replaced by its default. When the first choice exists (or choices is
    absent) and that text is a string, the answer is 200 with sad if the
    text, trimmed and lower-cased, is exactly sad, and 200 with happy
    otherwise, so a text that is neither happy nor sad gives happy. When
    choices is an empty list the answer is 500 with error = list index out of
    range and sentiment = happy; when a level holds a value of the wrong
    type the answer is 500 with an error text and sentiment = happy. *)
Theorem C10_main_fallback :
  forall (p : provider) (key : option string) (d : list (string * json))
         (m : json) (r : response) (fields : list (string * json)),
    Py.lookup "message" d = Some m ->
    Py.truthy m = true ->
    always p r ->
    json_body r = inr (JObj fields) ->
    let a := answer (Main.get_sentiment p (Body (JObj d))) (Main.load key) in
    (Py.lookup "choices" fields <> Some (JArr []) ->
       (forall t, claimed_text fields = Some t ->
          a = inr (200, obj1 "sentiment"
                          (if (PyStr.lower (PyStr.strip t) =? "sad")%string
                           then "sad" else "happy")))
       /\ falls_back fields a
       /\ (claimed_text fields = None ->
            exists msg, a = inr (500, obj2 "error" msg "sentiment" "happy")))
    /\ (Py.lookup "choices" fields = Some (JArr []) ->
          a = inr (500, obj2 "error" "list index out of range" "sentiment" "happy")).
Proof.
  intros p key d m r fields Hm Ht Hp Hb a. split.
  - intro Hne. pose proof (claimed_text_content fields Hne) as Hc.
    assert (Hyes : forall t, claimed_text fields = Some t ->
              a = inr (200, obj1 "sentiment"
                              (if (PyStr.lower (PyStr.strip t) =? "sad")%string
                               then "sad" else "happy"))).
    { intros t Ht'. rewrite Ht' in Hc.
      destruct (Main.content (JObj fields)) as [e | [| | | | s | |]] eqn:He;
        try discriminate Hc.
      injection Hc as <-. unfold a.
      rewrite (@Main_text p (Main.load key) d m Hm Ht r (JObj fields) Hp Hb t He).
      now rewrite main_label_sad_or_happy. }
    split; [exact Hyes | split].
    + intros t Ht' Hh Hs. rewrite (Hyes t Ht').
      destruct (String.eqb_spec (PyStr.lower (PyStr.strip t)) "sad");
        [contradiction | reflexivity].
    + intro Hnone. rewrite Hnone in Hc. unfold a.
      destruct (Main.content (JObj fields)) as [e | v] eqn:He.
      * eexists.
        exact (@Main_error p (Main.load key) d m Hm Ht r (JObj fields) Hp Hb e He).
      * destruct (is_string v) eqn:Hv.
        -- destruct v; try discriminate Hv. discriminate Hc.
        -- eexists.
           exact (@Main_not_a_string p (Main.load key) d m r (JObj fields) v
                    Hm Ht Hp Hb He Hv).
  - intro Hempty. unfold a.
    assert (He : Main.content (JObj fields) = inl (IndexError "list index out of range")).
    { unfold Main.content, Py.get. rewrite Hempty. reflexivity. }
    exact (@Main_error p (Main.load key) d m Hm Ht r (JObj fields) Hp Hb _ He).
Qed.

Lemma C10_main_fallback_witness :
  Py.truthy (JStr "hello") = true
  /\ answer (Main.get_sentiment
               (replying (document 200 "OK" (JObj (completion " Neutral. "))))
               (saying "hello"))
       (Main.load (Some "secret"))
     = inr (200, obj1 "sentiment" "happy").
Proof.
  split.
  - reflexivity.
  - refine (proj1 (proj1 (@C10_main_fallback
                            (replying (document 200 "OK" (JObj (completion " Neutral. "))))
                            (Some "secret") [("message", JStr "hello")] (JStr "hello")
                            (document 200 "OK" (JObj (completion " Neutral. ")))
                            (completion " Neutral. ") _ _ _ _) _) " Neutral. " _).
    + reflexivity.
    + reflexivity.
    + intros target headers payload. reflexivity.
    + reflexivity.
    + discriminate.
    + reflexivity.
Defined.

(** For the reply body with an empty choices list, the text with defaults is
    the empty string, neither happy nor sad, and main.py answers 500, not
    200 with happy. *)
Lemma C10_empty_choices_is_error :
  ~ falls_back [("choices", JArr [])]
      (answer (Main.get_sentiment
                 (replying (document 200 "OK" (JObj [("choices", JArr [])])))
                 (saying "hello"))
         (Main.load (Some "secret"))).
Proof.
  intro H. specialize (H EmptyString eq_refl).
  assert (Hneq : answer (Main.get_sentiment
                           (replying (document 200 "OK" (JObj [("choices", JArr [])])))
                           (saying "hello"))
                   (Main.load (Some "secret"))
                 <> inr (200, obj1 "sentiment" "happy"))
    by (vm_compute; discriminate).
  apply Hneq, H; vm_compute; discriminate.
Qed.

(** ** C1: labels other than happy and sad *)

(** C1 at the input on which app.py and app1.py depart from it: the provider
    says Neutral, and both handlers answer 200 with sentiment = neutral. *)
Theorem C1_app_surfaces_provider_text :
  answer (App.get_sentiment_route
            (replying (document 200 "OK" (gemini_reply (JStr "Neutral")))) (saying "hello"))
    (App.load (Some "secret"))
  = inr (200, obj1 "sentiment" "neutral")
  /\ answer (App1.get_sentiment_route
               (replying (document 200 "OK" (gemini_reply (JStr "Neutral")))) (saying "hello"))
       (App1.load (Some "secret"))
     = inr (200, obj1 "sentiment" "neutral").
Proof. split; vm_compute; reflexivity. Qed.

(** * Further properties of the handlers *)

(** ** What is sent to the provider *)

Lemma sendable_gemini_payload (m : json) (prompt : string) :
  sendable (gemini_payload m prompt) = sendable m.
Proof. cbn. now rewrite !andb_true_r. Qed.

Lemma sendable_main_payload (m : json) : sendable (Main.payload m) = sendable m.
Proof. cbn. now rewrite !andb_true_r. Qed.

Lemma sent_refused (p : provider) (target : string) (headers : list (string * string))
    (payload : json) :
  lawful p -> sendable payload = false -> sent p target headers payload = [].
Proof.
  intros Hl Hs. unfold sent. destruct (Hl target headers payload Hs) as [msg ->].
  reflexivity.
Qed.

Lemma App_outbound (p : provider) (g : App.config) (d : list (string * json)) (m : json) :
  Py.truthy_env (App.GEMINI_API_KEY g) = true ->
  Py.lookup "message" d = Some m ->
  outbound (trace (App.get_sentiment_route p (Body (JObj d))) g)
  = sent p (App.GEMINI_API_URL g) [] (gemini_payload m (App.SYSTEM_PROMPT g)).
Proof.
  intros Hk Hm. unfold App.get_sentiment_route, outbound, sent. run. run_with Hk.
  run_with (truthy_of_lookup _ _ Hm). run_with Hm. crunch; reflexivity.
Qed.

Lemma App_refused (p : provider) (g : App.config) (d : list (string * json)) (m : json)
    (msg : string) :
  Py.truthy_env (App.GEMINI_API_KEY g) = true ->
  Py.lookup "message" d = Some m ->
  p (App.GEMINI_API_URL g) [] (gemini_payload m (App.SYSTEM_PROMPT g)) = Refused msg ->
  answer (App.get_sentiment_route p (Body (JObj d))) g
  = inr (500, obj1 "error" "Failed to connect to the sentiment analysis service").
Proof.
  intros Hk Hm Hp. unfold App.get_sentiment_route. run. run_with Hk.
  run_with (truthy_of_lookup _ _ Hm). run_with Hm. run_with Hp. reflexivity.
Qed.

(** X1. app.py with a key, for a body that has a message field, whatever its
    value and whatever the provider then does: requests.post is called once,
    with the Gemini URL that ends in the key, no headers, the message as
    contents[0].parts[0].text and SYSTEM_PROMPT as
    systemInstruction.parts[0].text. That one request leaves, and no other,
    unless requests.post refuses the payload before sending. It does refuse a
    message that holds NaN or Infinity: then nothing is sent and the answer
    is 500 Failed to connect to the sentiment analysis service. *)
Theorem X1_app_outbound_request :
  forall (p : provider) (key : option string) (d : list (string * json)) (m : json),
    Py.truthy_env key = true ->
    Py.lookup "message" d = Some m ->
    let target :=
      "https://generativelanguage.googleapis.com/v1beta/models/gemini-2.0-flash:generateContent?key="
      ++ Py.format_env key in
    let payload :=
      JObj [("contents", JArr [JObj [("parts", JArr [JObj [("text", m)]])]]);
            ("systemInstruction",
             JObj [("parts",
                    JArr [JObj [("text", JStr (App.SYSTEM_PROMPT (App.load key)))]])])] in
    let run := App.get_sentiment_route p (Body (JObj d)) in
    outbound (trace run (App.load key)) = sent p target [] payload
    /\ (lawful p -> sendable m = false ->
          outbound (trace run (App.load key)) = []
          /\ answer run (App.load key)
             = inr (500, obj1 "error" "Failed to connect to the sentiment analysis service")).
Proof.
  intros p key d m Hk Hm target payload run.
  pose proof (@App_outbound p (App.load key) d m Hk Hm) as Ho.
  split; [exact Ho |]. intros Hl Hs.
  assert (Hp : sendable payload = false)
    by (rewrite <- Hs; exact (sendable_gemini_payload m (App.SYSTEM_PROMPT (App.load key)))).
  split.
  - unfold run. rewrite Ho. now apply sent_refused.
  - destruct (Hl target [] payload Hp) as [msg Hr].
    exact (@App_refused p (App.load key) d m msg Hk Hm Hr).
Qed.

Lemma careful_lawful (r : response) : lawful (careful r).
Proof.
  intros target headers payload H. unfold careful. rewrite H. eexists. reflexivity.
Qed.

Lemma X1_app_outbound_request_witness :
  (Py.truthy_env (Some "secret") = true /\ sendable (JFloat PrimFloat.nan) = false)
  /\ outbound (trace (App.get_sentiment_route (careful (document 200 "OK" (JObj [])))
                        (Body (JObj [("message", JFloat PrimFloat.nan)])))
                 (App.load (Some "secret"))) = []
  /\ outbound (trace (App.get_sentiment_route (down "no route") (saying EmptyString))
                 (App.load (Some "secret")))
     = [Posted
          "https://generativelanguage.googleapis.com/v1beta/models/gemini-2.0-flash:generateContent?key=secret"
          []
          (gemini_payload (JStr EmptyString) (App.SYSTEM_PROMPT (App.load (Some "secret"))))].
Proof.
  split; [split; reflexivity | split].
  - exact (proj1 (proj2 (@X1_app_outbound_request (careful (document 200 "OK" (JObj [])))
                           (Some "secret") [("message", JFloat PrimFloat.nan)]
                           (JFloat PrimFloat.nan) eq_refl eq_refl)
                    (careful_lawful (document 200 "OK" (JObj []))) eq_refl)).
  - exact (proj1 (@X1_app_outbound_request (down "no route") (Some "secret")
                    [("message", JStr EmptyString)] (JStr EmptyString) eq_refl eq_refl)).
Defined.

Lemma App1_outbound (p : provider) (g : App1.config) (d : list (string * json)) (m : json) :
  Py.truthy_env (App1.GEMINI_API_KEY g) = true ->
  Py.lookup "message" d = Some m ->
  Py.truthy m = true ->
  outbound (trace (App1.get_sentiment_route p (Body (JObj d))) g)
  = sent p (App1.GEMINI_API_URL g) [] (gemini_payload m App1.sentiment_prompt)
  /\ outbound (trace (App1.continue_chat_route p (Body (JObj d))) g)
     = sent p (App1.GEMINI_API_URL g) [] (gemini_payload m App1.chat_prompt).
Proof.
  intros Hk Hm Ht.
  split; unfold App1.get_sentiment_route, App1.continue_chat_route, outbound, sent;
    run; run_with Hk; run_with Hm; run_with Ht; crunch; reflexivity.
Qed.

Lemma App1_refused (p : provider) (g : App1.config) (d : list (string * json)) (m : json) :
  Py.truthy_env (App1.GEMINI_API_KEY g) = true ->
  Py.lookup "message" d = Some m ->
  Py.truthy m = true ->
  (forall msg,
     p (App1.GEMINI_API_URL g) [] (gemini_payload m App1.sentiment_prompt) = Refused msg ->
     answer (App1.get_sentiment_route p (Body (JObj d))) g
     = inr (500, obj1 "error" "Failed to connect to the sentiment analysis service"))
  /\ (forall msg,
        p (App1.GEMINI_API_URL g) [] (gemini_payload m App1.chat_prompt) = Refused msg ->
        answer (App1.continue_chat_route p (Body (JObj d))) g
        = inr (500, obj1 "error" "An unexpected error occurred.")).
Proof.
  intros Hk Hm Ht.
  split; intros msg Hp; unfold App1.get_sentiment_route, App1.continue_chat_route;
    run; run_with Hk; run_with Hm; run_with Ht; run_with Hp; reflexivity.
Qed.

(** X2. app1.py with a key, for a body whose message is truthy, whatever the
    provider then does: each handler calls requests.post once, with the
    Gemini URL that ends in the key, no headers, the message and its own
    system prompt (the sentiment prompt, the chat prompt). That one request
    leaves, and no other, unless requests.post refuses the payload before
    sending. It does refuse a message that holds NaN or Infinity: then
    nothing is sent, the sentiment handler answers 500 Failed to connect to
    the sentiment analysis service and the chat handler 500 An unexpected
    error occurred. *)
Theorem X2_app1_outbound_request :
  forall (p : provider) (key : option string) (d : list (string * json)) (m : json),
    Py.truthy_env key = true ->
    Py.lookup "message" d = Some m ->
    Py.truthy m = true ->
    let target :=
      "https://generativelanguage.googleapis.com/v1beta/models/gemini-2.5-flash:generateContent?key="
      ++ Py.format_env key in
    let sentiment := App1.get_sentiment_route p (Body (JObj d)) in
    let chat := App1.continue_chat_route p (Body (JObj d)) in
    outbound (trace sentiment (App1.load key))
    = sent p target [] (gemini_payload m App1.sentiment_prompt)
    /\ outbound (trace chat (App1.load key))
       = sent p target [] (gemini_payload m App1.chat_prompt)
    /\ (lawful p -> sendable m = false ->
          outbound (trace sentiment (App1.load key)) = []
          /\ outbound (trace chat (App1.load key)) = []
          /\ answer sentiment (App1.load key)
             = inr (500, obj1 "error" "Failed to connect to the sentiment analysis service")
          /\ answer chat (App1.load key)
             = inr (500, obj1 "error" "An unexpected error occurred.")).
Proof.
  intros p key d m Hk Hm Ht target sentiment chat.
  destruct (@App1_outbound p (App1.load key) d m Hk Hm Ht) as [Ho1 Ho2].
  destruct (@App1_refused p (App1.load key) d m Hk Hm Ht) as [Hr1 Hr2].
  split; [exact Ho1 | split; [exact Ho2 |]]. intros Hl Hs.
  assert (Hp1 : sendable (gemini_payload m App1.sentiment_prompt) = false)
    by (rewrite <- Hs; exact (sendable_gemini_payload m App1.sentiment_prompt)).
  assert (Hp2 : sendable (gemini_payload m App1.chat_prompt) = false)
    by (rewrite <- Hs; exact (sendable_gemini_payload m App1.chat_prompt)).
  split; [| split; [| split]].
  - unfold sentiment. rewrite Ho1. now apply sent_refused.
  - unfold chat. rewrite Ho2. now apply sent_refused.
  - destruct (Hl target [] _ Hp1) as [msg Hr]. exact (Hr1 msg Hr).
  - destruct (Hl target [] _ Hp2) as [msg Hr]. exact (Hr2 msg Hr).
Qed.

Lemma X2_app1_outbound_request_witness :
  (Py.truthy (JFloat PrimFloat.infinity) = true
   /\ sendable (JFloat PrimFloat.infinity) = false)
  /\ answer (App1.continue_chat_route (careful (document 200 "OK" (JObj [])))
               (Body (JObj [("message", JFloat PrimFloat.infinity)])))
       (App1.load (Some "secret"))
     = inr (500, obj1 "error" "An unexpected error occurred.")
  /\ outbound (trace (App1.continue_chat_route (down "no route")
                        (Body (JObj [("message", JInt 7)])))
                 (App1.load (Some "secret")))
     = [Posted
          "https://generativelanguage.googleapis.com/v1beta/models/gemini-2.5-flash:generateContent?key=secret"
          [] (gemini_payload (JInt 7) App1.chat_prompt)].
Proof.
  split; [split; reflexivity | split].
  - exact (proj2 (proj2 (proj2
             (proj2 (proj2 (@X2_app1_outbound_request (careful (document 200 "OK" (JObj [])))
                              (Some "secret") [("message", JFloat PrimFloat.infinity)]
                              (JFloat PrimFloat.infinity) eq_refl eq_refl eq_refl))
                (careful_lawful (document 200 "OK" (JObj []))) eq_refl)))).
  - exact (proj1 (proj2 (@X2_app1_outbound_request (down "no route") (Some "secret")
                           [("message", JInt 7)] (JInt 7) eq_refl eq_refl eq_refl))).
Defined.

Lemma Main_outbound (p : provider) (g : Main.config) (d : list (string * json)) (m : json) :
  Py.lookup "message" d = Some m ->
  Py.truthy m = true ->
  outbound (trace (Main.get_sentiment p (Body (JObj d))) g)
  = sent p (Main.GEMINI_ENDPOINT g) (Main.headers g) (Main.payload m).
Proof.
  intros Hm Ht. unfold Main.get_sentiment, outbound, sent. run.
  run_with Hm. run_with Ht. crunch; reflexivity.
Qed.

Lemma Main_refused (p : provider) (g : Main.config) (d : list (string * json)) (m : json)
    (msg : string) :
  Py.lookup "message" d = Some m ->
  Py.truthy m = true ->
  p (Main.GEMINI_ENDPOINT g) (Main.headers g) (Main.payload m) = Refused msg ->
  answer (Main.get_sentiment p (Body (JObj d))) g
  = inr (500, obj2 "error" msg "sentiment" "happy").
Proof.
  intros Hm Ht Hp. unfold Main.get_sentiment. run.
  run_with Hm. run_with Ht. run_with Hp. reflexivity.
Qed.

(** X3. main.py has no offline mode: for a body whose message is truthy it
    calls requests.post once under every key, with the chat-completions
    endpoint, the header Authorization = Bearer <key> (Bearer None when the
    variable is unset), the fixed model and system message, the user message
    and max_tokens = 5. That one request leaves, and no other, unless
    requests.post refuses the payload before sending. It does refuse a
    message that holds NaN or Infinity: then nothing is sent and the answer
    is 500 with the text of that refusal and sentiment happy. *)
Theorem X3_main_outbound_request :
  forall (p : provider) (key : option string) (d : list (string * json)) (m : json),
    Py.lookup "message" d = Some m ->
    Py.truthy m = true ->
    let headers :=
      [("Authorization", "Bearer " ++ Py.format_env key);
       ("Content-Type", "application/json")] in
    let payload :=
      JObj [("model", JStr "gemini-pro");
            ("messages",
             JArr [JObj [("role", JStr "system");
                         ("content",
                          JStr "You are a sentiment classifier. Only answer 'happy' or 'sad'.")];
                   JObj [("role", JStr "user"); ("content", m)]]);
            ("max_tokens", JInt 5)] in
    let run := Main.get_sentiment p (Body (JObj d)) in
    outbound (trace run (Main.load key))
    = sent p "https://api.gemini-pro.ai/v1/chat/completions" headers payload
    /\ (lawful p -> sendable m = false ->
          outbound (trace run (Main.load key)) = []
          /\ exists msg,
               answer run (Main.load key)
               = inr (500, obj2 "error" msg "sentiment" "happy")).
Proof.
  intros p key d m Hm Ht headers payload run.
  pose proof (@Main_outbound p (Main.load key) d m Hm Ht) as Ho.
  split; [exact Ho |]. intros Hl Hs.
  assert (Hp : sendable payload = false)
    by (rewrite <- Hs; exact (sendable_main_payload m)).
  split.
  - unfold run. rewrite Ho. now apply sent_refused.
  - destruct (Hl "https://api.gemini-pro.ai/v1/chat/completions" headers payload Hp)
      as [msg Hr].
    exists msg. exact (@Main_refused p (Main.load key) d m msg Hm Ht Hr).
Qed.

Lemma X3_main_outbound_request_witness :
  (Py.truthy (JFloat PrimFloat.infinity) = true
   /\ sendable (JFloat PrimFloat.infinity) = false)
  /\ outbound (trace (Main.get_sentiment (careful (document 200 "OK" (JObj [])))
                        (Body (JObj [("message", JFloat PrimFloat.infinity)])))
                 (Main.load (Some "secret"))) = []
  /\ outbound (trace (Main.get_sentiment (down "no route") (saying "hello")) (Main.load None))
     = [Posted "https://api.gemini-pro.ai/v1/chat/completions"
          [("Authorization", "Bearer None"); ("Content-Type", "application/json")]
          (Main.payload (JStr "hello"))].
Proof.
  split; [split; reflexivity | split].
  - exact (proj1 (proj2 (@X3_main_outbound_request (careful (document 200 "OK" (JObj [])))
                           (Some "secret") [("message", JFloat PrimFloat.infinity)]
                           (JFloat PrimFloat.infinity) eq_refl eq_refl)
                    (careful_lawful (document 200 "OK" (JObj []))) eq_refl)).
  - exact (proj1 (@X3_main_outbound_request (down "no route") None
                    [("message", JStr "hello")] (JStr "hello") eq_refl eq_refl)).
Defined.

(** X4. Offline mode never contacts the provider: without a key (unset or
    empty), no handler of app.py or app1.py sends anything, for any request
    at all, valid or not. *)
Theorem X4_offline_sends_nothing :
  forall (p : provider) (key : option string) (req : request),
    Py.truthy_env key = false ->
    outbound (trace (App.get_sentiment_route p req) (App.load key)) = []
    /\ outbound (trace (App1.get_sentiment_route p req) (App1.load key)) = []
    /\ outbound (trace (App1.continue_chat_route p req) (App1.load key)) = [].
Proof.
  intros p key req Hk.
  assert (Ha : Py.truthy_env (App.GEMINI_API_KEY (App.load key)) = false) by exact Hk.
  assert (Hb : Py.truthy_env (App1.GEMINI_API_KEY (App1.load key)) = false) by exact Hk.
  revert Ha Hb. generalize (App.load key) (App1.load key). intros g g1 Ha Hb.
  repeat split; unfold App.get_sentiment_route, App1.get_sentiment_route,
    App1.continue_chat_route, outbound; run;
    first [rewrite Ha | rewrite Hb]; run; crunch; reflexivity.
Qed.

Lemma X4_offline_sends_nothing_witness :
  Py.truthy_env (Some EmptyString) = false
  /\ outbound (trace (App.get_sentiment_route (down "no route") (Rejected 415 "Unsupported Media Type"))
                 (App.load (Some EmptyString))) = [].
Proof.
  split.
  - reflexivity.
  - exact (proj1 (@X4_offline_sends_nothing (down "no route") (Some EmptyString)
                    (Rejected 415 "Unsupported Media Type") eq_refl)).
Defined.

(** ** Every answer a handler can give *)

Lemma subscript_raises (v : json) (k : pykey) (e : exn) :
  Py.subscript v k = inl e -> lookup_failure e.
Proof.
  unfold Py.subscript. intro H.
  destruct v, k; try (injection H as <-; exact I);
    repeat match type of H with
           | context [match ?x with _ => _ end] => destruct x
           end;
    try discriminate H; injection H as <-; exact I.
Qed.

Lemma subscripts_raises (ks : list pykey) :
  forall (v : json) (e : exn), subscripts v ks = inl e -> lookup_failure e.
Proof.
  induction ks as [| k ks IH]; intros v e H; [discriminate H |].
  unfold subscripts in H; fold subscripts in H.
  destruct (Py.subscript v k) as [e' | v'] eqn:Hs.
  - injection H as <-. exact (subscript_raises _ _ Hs).
  - exact (IH _ _ H).
Qed.

(** Closes the cases in which a subscript chain would have raised what it
    cannot raise. *)
Ltac absurd_lookup :=
  match goal with
  | H : subscripts _ _ = inl _ |- _ =>
      apply subscripts_raises in H; cbn in H; contradiction
  end.

Ltac sentiment_leaf :=
  first
    [ absurd_lookup
    | exact I
    | left; split; [reflexivity | eexists; reflexivity]
    | right; split;
      [ first [ left; reflexivity | right; left; reflexivity
              | right; right; unfold error_status; lia ]
      | eexists; reflexivity ] ].

(** X5. Whatever the request and the provider, the sentiment handlers of
    app.py and app1.py either answer 200 with a sentiment field, or answer
    400, 500 or a provider status from 400 to 599 with an error string, or
    let one of three exceptions through: the HTTP error of a request body
    that is not JSON, a TypeError or an AttributeError. KeyError, IndexError
    and every exception of the requests library are always turned into an
    answer. *)
Theorem X5_sentiment_outcomes :
  forall (p : provider) (req : request),
    (forall g, match answer (App.get_sentiment_route p req) g with
               | inr a => sentiment_reply a
               | inl e => uncaught e
               end)
    /\ (forall g, match answer (App1.get_sentiment_route p req) g with
                  | inr a => sentiment_reply a
                  | inl e => uncaught e
                  end).
Proof.
  intros p req. split; intro g.
  - unfold App.get_sentiment_route, sentiment_reply, uncaught. run.
    crunch; sentiment_leaf.
  - unfold App1.get_sentiment_route, sentiment_reply, uncaught. run.
    crunch; sentiment_leaf.
Qed.

Ltac chat_leaf :=
  first
    [ absurd_lookup
    | left; eexists; eexists; split; reflexivity
    | right; eexists; split; [reflexivity | split; reflexivity]
    | left; split; [reflexivity | eexists; reflexivity]
    | right; left; split; reflexivity
    | right; right; left; split; reflexivity
    | right; right; right; split; [unfold error_status; lia | reflexivity] ].

(** X6. The chat handler raises in two cases only, both with a key
    configured: the request body is not JSON (the HTTP error of get_json goes
    through), or it is JSON but not an object (AttributeError: no attribute
    get). In every other case it answers: 200 with a response text, 400
    Message is required, 500 An unexpected error occurred, or a provider
    status from 400 to 599 with The chat service is currently unavailable. *)
Theorem X6_chat_outcomes :
  forall (p : provider) (req : request) (g : App1.config),
    match answer (App1.continue_chat_route p req) g with
    | inr a => chat_reply a
    | inl e =>
        (exists code msg, req = Rejected code msg /\ e = HTTPException code msg)
        \/ (exists j, req = Body j /\ is_object j = false /\ e = Py.no_attribute j "get")
    end.
Proof.
  intros p req g. unfold App1.continue_chat_route, chat_reply. run.
  crunch; chat_leaf.
Qed.

Lemma label_is_happy_or_sad (s : string) :
  negb ((s =? "happy")%string || ((s =? "sad")%string || false)) = false ->
  s = "happy" \/ s = "sad".
Proof.
  intro H.
  destruct (String.eqb_spec s "happy"); [now left |].
  destruct (String.eqb_spec s "sad"); [now right | discriminate H].
Qed.

Ltac main_leaf :=
  first
    [ left; reflexivity
    | right; right; left; reflexivity
    | right; right; right; eexists; reflexivity
    | match goal with
      | H : negb _ = false |- _ =>
          apply label_is_happy_or_sad in H; destruct H as [-> | ->];
          [left; reflexivity | right; left; reflexivity]
      end ].

(** X7. main.py never raises, and it has four answers only, whatever the
    request and the provider: 200 with sentiment happy, 200 with sentiment
    sad, 400 No message provided, or 500 with an error text and sentiment
    happy. No other label and no other status ever leaves the handler. *)
Theorem X7_main_outcomes :
  forall (p : provider) (req : request) (g : Main.config),
    exists a, answer (Main.get_sentiment p req) g = inr a /\ main_reply a.
Proof.
  intros p req g. unfold Main.get_sentiment, main_reply. run.
  crunch; eexists; (split; [reflexivity | main_leaf]).
Qed.

(** ** A reply that arrived: what is made of its document *)

(** X8. With a key, a message and a provider reply of a status outside
    400..599 whose body is a JSON document, the answer is decided by the
    extraction candidates[0].content.parts[0].text.strip() alone. app.py and
    app1.py answer 200 with the lower-cased text when it succeeds and 500
    Invalid response structure when it raises KeyError or IndexError; a
    TypeError (a null or a number where a list or object is expected) or an
    AttributeError (a text that is not a string) leaves the handler uncaught.
    The chat handler answers 200 with the text, or 500 An unexpected error
    occurred for every exception. *)
Theorem X8_reply_document :
  forall (p : provider) (key : option string) (d : list (string * json))
         (m : json) (r : response) (j : json),
    Py.truthy_env key = true ->
    Py.lookup "message" d = Some m ->
    Py.truthy m = true ->
    always p r ->
    error_status (status_code r) = false ->
    json_body r = inr j ->
    let req := Body (JObj d) in
    answer (App.get_sentiment_route p req) (App.load key)
    = sentiment_of_extract (gemini_extract j)
    /\ answer (App1.get_sentiment_route p req) (App1.load key)
       = sentiment_of_extract (gemini_extract j)
    /\ answer (App1.continue_chat_route p req) (App1.load key)
       = chat_of_extract (gemini_extract j).
Proof.
  intros p key d m r j Hk Hm Ht Hp Hs Hb req.
  destruct (not_error_status _ Hs) as [H4 H5].
  assert (Ha : Py.truthy_env (App.GEMINI_API_KEY (App.load key)) = true) by exact Hk.
  assert (Hb1 : Py.truthy_env (App1.GEMINI_API_KEY (App1.load key)) = true) by exact Hk.
  revert Ha Hb1. generalize (App.load key) (App1.load key). intros g g1 Ha Hb1.
  unfold req, gemini_extract, sentiment_of_extract, chat_of_extract.
  repeat split.
  - unfold App.get_sentiment_route. run. run_with Ha.
    run_with (truthy_of_lookup _ _ Hm). run_with Hm. run_with Hp.
    run_with H4. run_with H5. run_with Hb.
    crunch; first [absurd_lookup | reflexivity].
  - unfold App1.get_sentiment_route. run. run_with Hb1.
    run_with Hm. run_with Ht. run_with Hp.
    run_with H4. run_with H5. run_with Hb.
    crunch; first [absurd_lookup | reflexivity].
  - unfold App1.continue_chat_route. run. run_with Hb1.
    run_with Hm. run_with Ht. run_with Hp.
    run_with H4. run_with H5. run_with Hb.
    crunch; first [absurd_lookup | reflexivity].
Qed.

Lemma X8_reply_document_witness :
  error_status 200 = false
  /\ answer (App.get_sentiment_route
               (replying (document 200 "OK" (JObj [("candidates", JNull)]))) (saying "hello"))
       (App.load (Some "secret"))
     = inl (TypeError "'NoneType' object is not subscriptable").
Proof.
  split.
  - reflexivity.
  - refine (proj1 (@X8_reply_document
                     (replying (document 200 "OK" (JObj [("candidates", JNull)])))
                     (Some "secret") [("message", JStr "hello")] (JStr "hello")
                     (document 200 "OK" (JObj [("candidates", JNull)]))
                     (JObj [("candidates", JNull)]) _ _ _ _ _ _)).
    + reflexivity.
    + reflexivity.
    + reflexivity.
    + intros target headers payload. reflexivity.
    + reflexivity.
    + reflexivity.
Defined.

(** X9. When the provider's body is not JSON (and the status is outside
    400..599), response.json() raises and the handlers answer 500: app.py
    and app1.py with Failed to connect to the sentiment analysis service,
    the chat handler with An unexpected error occurred. main.py, which reads
    the body under every status, answers 500 with the decoder's text as the
    error and sentiment happy. *)
Theorem X9_body_not_json :
  forall (p : provider) (key : option string) (d : list (string * json))
         (m : json) (r : response) (msg : string),
    Py.truthy_env key = true ->
    Py.lookup "message" d = Some m ->
    Py.truthy m = true ->
    always p r ->
    json_body r = inl msg ->
    let req := Body (JObj d) in
    let failed := obj1 "error" "Failed to connect to the sentiment analysis service" in
    (error_status (status_code r) = false ->
       answer (App.get_sentiment_route p req) (App.load key) = inr (500, failed)
       /\ answer (App1.get_sentiment_route p req) (App1.load key) = inr (500, failed)
       /\ answer (App1.continue_chat_route p req) (App1.load key)
          = inr (500, obj1 "error" "An unexpected error occurred."))
    /\ answer (Main.get_sentiment p req) (Main.load key)
       = inr (500, obj2 "error" msg "sentiment" "happy").
Proof.
  intros p key d m r msg Hk Hm Ht Hp Hb req failed.
  assert (Ha : Py.truthy_env (App.GEMINI_API_KEY (App.load key)) = true) by exact Hk.
  assert (Hb1 : Py.truthy_env (App1.GEMINI_API_KEY (App1.load key)) = true) by exact Hk.
  revert Ha Hb1. generalize (App.load key) (App1.load key) (Main.load key).
  intros g g1 g2 Ha Hb1. unfold req, failed. split.
  - intro Hs. destruct (not_error_status _ Hs) as [H4 H5]. repeat split.
    + unfold App.get_sentiment_route. run. run_with Ha.
      run_with (truthy_of_lookup _ _ Hm). run_with Hm. run_with Hp.
      run_with H4. run_with H5. run_with Hb. reflexivity.
    + unfold App1.get_sentiment_route. run. run_with Hb1.
      run_with Hm. run_with Ht. run_with Hp.
      run_with H4. run_with H5. run_with Hb. reflexivity.
    + unfold App1.continue_chat_route. run. run_with Hb1.
      run_with Hm. run_with Ht. run_with Hp.
      run_with H4. run_with H5. run_with Hb. reflexivity.
  - unfold Main.get_sentiment. run. run_with Hm. run_with Ht. run_with Hp.
    run_with Hb. reflexivity.
Qed.

Lemma X9_body_not_json_witness :
  error_status 502 = true
  /\ answer (Main.get_sentiment
               (replying (mkResponse 502 "Bad Gateway" "https://provider.example/"
                            (inl "Expecting value: line 1 column 1 (char 0)")))
               (saying "hello"))
       (Main.load (Some "secret"))
     = inr (500, obj2 "error" "Expecting value: line 1 column 1 (char 0)" "sentiment" "happy").
Proof.
  split.
  - reflexivity.
  - refine (proj2 (@X9_body_not_json
                     (replying (mkResponse 502 "Bad Gateway" "https://provider.example/"
                                  (inl "Expecting value: line 1 column 1 (char 0)")))
                     (Some "secret") [("message", JStr "hello")] (JStr "hello")
                     (mkResponse 502 "Bad Gateway" "https://provider.example/"
                        (inl "Expecting value: line 1 column 1 (char 0)"))
                     "Expecting value: line 1 column 1 (char 0)" _ _ _ _ _)).
    + reflexivity.
    + reflexivity.
    + reflexivity.
    + intros target headers payload. reflexivity.
    + reflexivity.
Defined.

(** X10. The chat handler and a failing provider: a provider status from 400
    to 599 is relayed as the status of the answer, with the fixed text The
    chat service is currently unavailable; a provider that cannot be reached
    gives 500 An unexpected error occurred. *)
Theorem X10_chat_provider_failure :
  forall (p : provider) (key : option string) (d : list (string * json)) (m : json),
    Py.truthy_env key = true ->
    Py.lookup "message" d = Some m ->
    Py.truthy m = true ->
    let a := answer (App1.continue_chat_route p (Body (JObj d))) (App1.load key) in
    (forall r, always p r -> error_status (status_code r) = true ->
       a = inr (status_code r, obj1 "error" "The chat service is currently unavailable."))
    /\ (forall msg, unreachable p msg ->
          a = inr (500, obj1 "error" "An unexpected error occurred.")).
Proof.
  intros p key d m Hk Hm Ht a. split.
  - intros r Hp Hs. exact (@App1_chat_rejected p (App1.load key) d m Hk Hm Ht r Hp Hs).
  - intros msg Hp. unfold a.
    assert (Hb1 : Py.truthy_env (App1.GEMINI_API_KEY (App1.load key)) = true) by exact Hk.
    revert Hb1. generalize (App1.load key). intros g1 Hb1.
    unfold App1.continue_chat_route. run. run_with Hb1. run_with Hm. run_with Ht. run_with Hp. reflexivity.
Qed.

Lemma X10_chat_provider_failure_witness :
  Py.truthy_env (Some "secret") = true
  /\ answer (App1.continue_chat_route (replying (document 429 "Too Many Requests" (JObj [])))
               (saying "hello"))
       (App1.load (Some "secret"))
     = inr (429, obj1 "error" "The chat service is currently unavailable.").
Proof.
  split.
  - reflexivity.
  - refine (proj1 (@X10_chat_provider_failure
                     (replying (document 429 "Too Many Requests" (JObj [])))
                     (Some "secret") [("message", JStr "hello")] (JStr "hello") _ _ _)
              (document 429 "Too Many Requests" (JObj [])) _ _).
    + reflexivity.
    + reflexivity.
    + reflexivity.
    + intros target headers payload. reflexivity.
    + reflexivity.
Defined.

(** ** Requests of an unexpected shape *)

(** X11. app1.py and main.py test the message for truth, not for being a
    string: a message that is present but falsy (0, false, null, an empty
    list or object, 0.0, the empty string) is answered 400 like a missing
    one, and nothing is sent to the provider. *)
Theorem X11_falsy_message :
  forall (p : provider) (key : option string) (d : list (string * json)) (m : json),
    Py.truthy_env key = true ->
    Py.lookup "message" d = Some m ->
    Py.truthy m = false ->
    let req := Body (JObj d) in
    settles (App1.get_sentiment_route p req) (App1.load key)
      400 (obj1 "error" "Message is required")
    /\ settles (App1.continue_chat_route p req) (App1.load key)
         400 (obj1 "error" "Message is required")
    /\ settles (Main.get_sentiment p req) (Main.load key)
         400 (obj1 "error" "No message provided").
Proof.
  intros p key d m Hk Hm Ht req.
  assert (Hb1 : Py.truthy_env (App1.GEMINI_API_KEY (App1.load key)) = true) by exact Hk.
  revert Hb1. generalize (App1.load key) (Main.load key). intros g1 g2 Hb1.
  unfold req, settles. repeat split.
  1, 2: unfold App1.get_sentiment_route; run; run_with Hb1; run_with Hm;
        run_with Ht; reflexivity.
  1, 2: unfold App1.continue_chat_route; run; run_with Hb1; run_with Hm;
        run_with Ht; reflexivity.
  1, 2: unfold Main.get_sentiment; run; run_with Hm; run_with Ht; reflexivity.
Qed.

Lemma X11_falsy_message_witness :
  Py.truthy (JInt 0) = false
  /\ settles (Main.get_sentiment (down "no route") (Body (JObj [("message", JInt 0)])))
       (Main.load (Some "secret")) 400 (obj1 "error" "No message provided").
Proof.
  split.
  - reflexivity.
  - exact (proj2 (proj2 (@X11_falsy_message (down "no route") (Some "secret")
                           [("message", JInt 0)] (JInt 0) eq_refl eq_refl eq_refl))).
Defined.

(** X12. A request body that is JSON but not an object never reaches the
    provider. main.py answers it 500 with the text of the AttributeError (no
    attribute get) and sentiment happy. With a key, both handlers of app1.py
    raise that AttributeError; app.py answers 400 when the body is falsy
    (null, [], 0, false, the empty string) and otherwise answers 400 or
    raises a TypeError. *)
Theorem X12_body_not_an_object :
  forall (p : provider) (key : option string) (j : json),
    Py.truthy_env key = true ->
    is_object j = false ->
    let req := Body j in
    settles (Main.get_sentiment p req) (Main.load key)
      500 (obj2 "error" (Py.str_exn (Py.no_attribute j "get")) "sentiment" "happy")
    /\ (answer (App1.get_sentiment_route p req) (App1.load key) = inl (Py.no_attribute j "get")
        /\ outbound (trace (App1.get_sentiment_route p req) (App1.load key)) = [])
    /\ (answer (App1.continue_chat_route p req) (App1.load key) = inl (Py.no_attribute j "get")
        /\ outbound (trace (App1.continue_chat_route p req) (App1.load key)) = [])
    /\ (let a := answer (App.get_sentiment_route p req) (App.load key) in
        let invalid := inr (400, obj1 "error" "Message is required in the request body") in
        (Py.truthy j = false -> a = invalid)
        /\ (a = invalid \/ exists msg, a = inl (TypeError msg))
        /\ outbound (trace (App.get_sentiment_route p req) (App.load key)) = []).
Proof.
  intros p key j Hk Hj req.
  assert (Ha : Py.truthy_env (App.GEMINI_API_KEY (App.load key)) = true) by exact Hk.
  assert (Hb1 : Py.truthy_env (App1.GEMINI_API_KEY (App1.load key)) = true) by exact Hk.
  revert Ha Hb1. generalize (App.load key) (App1.load key) (Main.load key).
  intros g g1 g2 Ha Hb1. unfold req, settles, outbound.
  split; [| split; [| split]].
  - destruct j; try discriminate Hj; split; reflexivity.
  - unfold App1.get_sentiment_route. run. rewrite Hb1.
    destruct j; try discriminate Hj; split; reflexivity.
  - unfold App1.continue_chat_route. run. rewrite Hb1.
    destruct j; try discriminate Hj; split; reflexivity.
  - unfold App.get_sentiment_route. run. rewrite Ha. run.
    split; [| split].
    + intro Hf. rewrite Hf. reflexivity.
    + destruct (Py.truthy j); [| left; reflexivity]. run.
      destruct j; try discriminate Hj; cbn; crunch; eauto.
    + destruct (Py.truthy j); [| reflexivity]. run.
      destruct j; try discriminate Hj; cbn; crunch; reflexivity.
Qed.

Lemma X12_body_not_an_object_witness :
  is_object (JArr [JStr "message"]) = false
  /\ answer (App.get_sentiment_route (down "no route") (Body (JArr [JStr "message"])))
       (App.load (Some "secret"))
     = inl (TypeError "list indices must be integers or slices, not str").
Proof.
  split.
  - reflexivity.
  - destruct (proj1 (proj2 (proj2 (proj2 (proj2
               (@X12_body_not_an_object (down "no route") (Some "secret")
                  (JArr [JStr "message"]) eq_refl eq_refl)))))) as [H | [msg H]].
    + discriminate H.
    + reflexivity.
Defined.

(** X13. A request whose body cannot be read as JSON (get_json aborts with
    an HTTP error such as 400 or 415): the handlers of app.py and app1.py let
    that HTTP error through, in offline mode too, except the chat handler in
    offline mode, which answers its placeholder without reading the body.
    main.py catches it and answers 500 with the error's text and sentiment
    happy. Nothing is sent to the provider. *)
Theorem X13_unreadable_body :
  forall (p : provider) (key : option string) (code : Z) (msg : string),
    let req := Rejected code msg in
    answer (App.get_sentiment_route p req) (App.load key) = inl (HTTPException code msg)
    /\ answer (App1.get_sentiment_route p req) (App1.load key) = inl (HTTPException code msg)
    /\ answer (App1.continue_chat_route p req) (App1.load key)
       = (if Py.truthy_env key then inl (HTTPException code msg)
          else inr (200, obj1 "response" offline_chat_text))
    /\ settles (Main.get_sentiment p req) (Main.load key)
         500 (obj2 "error" msg "sentiment" "happy")
    /\ outbound (trace (App.get_sentiment_route p req) (App.load key)) = []
    /\ outbound (trace (App1.get_sentiment_route p req) (App1.load key)) = []
    /\ outbound (trace (App1.continue_chat_route p req) (App1.load key)) = [].
Proof.
  intros p key code msg req. unfold req, settles, outbound.
  assert (Ha : App.GEMINI_API_KEY (App.load key) = key) by reflexivity.
  assert (Hb1 : App1.GEMINI_API_KEY (App1.load key) = key) by reflexivity.
  revert Ha Hb1. generalize (App.load key) (App1.load key) (Main.load key).
  intros g g1 g2 Ha Hb1.
  unfold App.get_sentiment_route, App1.get_sentiment_route, App1.continue_chat_route,
    Main.get_sentiment.
  run. rewrite Ha, Hb1. destruct (Py.truthy_env key); cbn; repeat split.
Qed.

(** X14. Offline mode with a message that is not a string: the mock branch
    of app.py and of app1.py calls lower() on whatever the message field
    holds, so a number, a boolean, null, a list or an object there raises
    AttributeError (no attribute lower), uncaught. *)
Theorem X14_offline_message_not_a_string :
  forall (p : provider) (key : option string) (d : list (string * json)) (m : json),
    Py.truthy_env key = false ->
    Py.lookup "message" d = Some m ->
    is_string m = false ->
    let req := Body (JObj d) in
    answer (App.get_sentiment_route p req) (App.load key) = inl (Py.no_attribute m "lower")
    /\ answer (App1.get_sentiment_route p req) (App1.load key) = inl (Py.no_attribute m "lower").
Proof.
  intros p key d m Hk Hm Hs req.
  assert (Ha : Py.truthy_env (App.GEMINI_API_KEY (App.load key)) = false) by exact Hk.
  assert (Hb1 : Py.truthy_env (App1.GEMINI_API_KEY (App1.load key)) = false) by exact Hk.
  revert Ha Hb1. generalize (App.load key) (App1.load key). intros g g1 Ha Hb1.
  unfold req. split.
  - unfold App.get_sentiment_route. run. run_with Ha. run_with Hm.
    destruct m; try discriminate Hs; reflexivity.
  - unfold App1.get_sentiment_route. run. run_with Hb1. run_with Hm.
    destruct m; try discriminate Hs; reflexivity.
Qed.

Lemma X14_offline_message_not_a_string_witness :
  is_string JNull = false
  /\ answer (App.get_sentiment_route (down "no route") (Body (JObj [("message", JNull)])))
       (App.load None)
     = inl (AttributeError "'NoneType' object has no attribute 'lower'").
Proof.
  split.
  - reflexivity.
  - exact (proj1 (@X14_offline_message_not_a_string (down "no route") None
                    [("message", JNull)] JNull eq_refl eq_refl eq_refl)).
Defined.

(** ** The keyword heuristic, on any message *)

Lemma append_cons (c : ascii) (a b : string) : String c a ++ b = String c (a ++ b).
Proof. reflexivity. Qed.

Lemma append_empty (b : string) : EmptyString ++ b = b.
Proof. reflexivity. Qed.

Lemma lower_cons (c : ascii) (s : string) :
  PyStr.lower (String c s) = String (PyStr.lower_char c) (PyStr.lower s).
Proof. reflexivity. Qed.

Lemma contains_cons (sub : string) (c : ascii) (s : string) :
  PyStr.contains sub (String c s) = prefix sub (String c s) || PyStr.contains sub s.
Proof. reflexivity. Qed.

Lemma contains_here (sub s : string) : prefix sub s = true -> PyStr.contains sub s = true.
Proof.
  intro H. destruct s as [| c s].
  - change (PyStr.contains sub EmptyString) with (prefix sub EmptyString || false).
    now rewrite H.
  - now rewrite contains_cons, H.
Qed.

Lemma lower_app (a b : string) : PyStr.lower (a ++ b) = PyStr.lower a ++ PyStr.lower b.
Proof.
  induction a as [| c a IH]; [reflexivity |].
  now rewrite append_cons, !lower_cons, append_cons, IH.
Qed.

Lemma prefix_app (sub b : string) : prefix sub (sub ++ b) = true.
Proof.
  induction sub as [| c sub IH]; [rewrite append_empty; destruct b; reflexivity |].
  rewrite append_cons. cbn [prefix].
  destruct (ascii_dec c c) as [_ | Hne]; [exact IH | now elim Hne].
Qed.

Lemma contains_mid (sub a b : string) : PyStr.contains sub (a ++ sub ++ b) = true.
Proof.
  induction a as [| c a IH].
  - rewrite append_empty. apply contains_here, prefix_app.
  - rewrite append_cons, contains_cons, IH. apply orb_true_r.
Qed.

Lemma app1_label_implies_app_label (s : string) :
  app1_mock_label s = "happy" -> app_mock_label s = "happy".
Proof.
  unfold app1_mock_label, app_mock_label.
  destruct (PyStr.contains "good" (PyStr.lower s)); [reflexivity | discriminate].
Qed.

(** X15. The offline heuristic looks for its keyword anywhere in the
    lower-cased message, as a substring: a message that contains good in any
    mix of cases, with anything before and after it (inside another word as
    well), is answered happy by app.py and by app1.py; one that contains
    great likewise is answered happy by app.py. Whenever app1.py answers
    happy, app.py does. *)
Theorem X15_keyword_anywhere :
  forall (p : provider) (key : option string) (pre w post : string),
    Py.truthy_env key = false ->
    (PyStr.lower w = "good" ->
       settles (App.get_sentiment_route p (saying (pre ++ w ++ post))) (App.load key)
         200 (obj1 "sentiment" "happy")
       /\ settles (App1.get_sentiment_route p (saying (pre ++ w ++ post))) (App1.load key)
            200 (obj1 "sentiment" "happy"))
    /\ (PyStr.lower w = "great" ->
          settles (App.get_sentiment_route p (saying (pre ++ w ++ post))) (App.load key)
            200 (obj1 "sentiment" "happy"))
    /\ (forall s, app1_mock_label s = "happy" -> app_mock_label s = "happy").
Proof.
  intros p key pre w post Hk. split; [| split].
  - intro Hw.
    assert (Hc : PyStr.contains "good" (PyStr.lower (pre ++ w ++ post)) = true)
      by (rewrite !lower_app, Hw; apply contains_mid).
    split.
    + replace "happy" with (app_mock_label (pre ++ w ++ post))
        by (unfold app_mock_label; now rewrite Hc).
      now apply App_mock.
    + replace "happy" with (app1_mock_label (pre ++ w ++ post))
        by (unfold app1_mock_label; now rewrite Hc).
      now apply App1_mock.
  - intro Hw.
    assert (Hc : PyStr.contains "great" (PyStr.lower (pre ++ w ++ post)) = true)
      by (rewrite !lower_app, Hw; apply contains_mid).
    replace "happy" with (app_mock_label (pre ++ w ++ post))
      by (unfold app_mock_label; rewrite Hc; now rewrite orb_true_r).
    now apply App_mock.
  - exact app1_label_implies_app_label.
Qed.

Lemma X15_keyword_anywhere_witness :
  Py.truthy_env None = false
  /\ settles (App1.get_sentiment_route (down "no route") (saying "Not GOODbye yet"))
       (App1.load None) 200 (obj1 "sentiment" "happy").
Proof.
  split.
  - reflexivity.
  - exact (proj2 (proj1 (@X15_keyword_anywhere (down "no route") None
                           "Not " "GOOD" "bye yet" eq_refl) eq_refl)).
Defined.

(** ** The label that is returned *)

Lemma isspace_lower_char (c : ascii) :
  PyStr.isspace (PyStr.lower_char c) = PyStr.isspace c.
Proof. destruct c as [[] [] [] [] [] [] [] []]; reflexivity. Qed.

Lemma lower_char_idem (c : ascii) :
  PyStr.lower_char (PyStr.lower_char c) = PyStr.lower_char c.
Proof. destruct c as [[] [] [] [] [] [] [] []]; reflexivity. Qed.

Lemma lower_idem (s : string) : PyStr.lower (PyStr.lower s) = PyStr.lower s.
Proof.
  induction s as [| c s IH]; [reflexivity |].
  now rewrite !lower_cons, lower_char_idem, IH.
Qed.

Lemma lstrip_lower (s : string) :
  PyStr.lstrip (PyStr.lower s) = PyStr.lower (PyStr.lstrip s).
Proof.
  induction s as [| c s IH]; [reflexivity |].
  rewrite lower_cons. cbn [PyStr.lstrip]. rewrite isspace_lower_char.
  destruct (PyStr.isspace c); [exact IH | now rewrite lower_cons].
Qed.

Lemma rstrip_lower (s : string) :
  PyStr.rstrip (PyStr.lower s) = PyStr.lower (PyStr.rstrip s).
Proof.
  induction s as [| c s IH]; [reflexivity |].
  rewrite lower_cons. cbn [PyStr.rstrip]. rewrite IH, isspace_lower_char.
  destruct (PyStr.rstrip s) as [| c' r'].
  - change (PyStr.lower EmptyString) with EmptyString.
    destruct (PyStr.isspace c); [reflexivity | now rewrite lower_cons].
  - rewrite (lower_cons c' r'). now rewrite (lower_cons c (String c' r')), lower_cons.
Qed.

Lemma strip_lower (s : string) :
  PyStr.strip (PyStr.lower s) = PyStr.lower (PyStr.strip s).
Proof.
  change (PyStr.rstrip (PyStr.lstrip (PyStr.lower s))
          = PyStr.lower (PyStr.rstrip (PyStr.lstrip s))).
  now rewrite lstrip_lower, rstrip_lower.
Qed.

Lemma lstrip_length (s : string) : (String.length (PyStr.lstrip s) <= String.length s)%nat.
Proof.
  induction s as [| c s IH]; cbn; [apply le_n |].
  destruct (PyStr.isspace c); cbn; lia.
Qed.

Lemma lstrip_idem (s : string) : PyStr.lstrip (PyStr.lstrip s) = PyStr.lstrip s.
Proof.
  induction s as [| c s IH]; [reflexivity |].
  cbn [PyStr.lstrip]. destruct (PyStr.isspace c) eqn:Hc; [exact IH |].
  cbn [PyStr.lstrip]. now rewrite Hc.
Qed.

Lemma lstrip_rstrip (x : string) :
  PyStr.lstrip x = x -> PyStr.lstrip (PyStr.rstrip x) = PyStr.rstrip x.
Proof.
  destruct x as [| c x]; [reflexivity |]. cbn [PyStr.lstrip PyStr.rstrip].
  destruct (PyStr.isspace c) eqn:Hc.
  - intro H. pose proof (lstrip_length x) as Hl. rewrite H in Hl. cbn in Hl. lia.
  - intros _. destruct (PyStr.rstrip x); cbn [PyStr.lstrip]; now rewrite Hc.
Qed.

Lemma rstrip_idem (s : string) : PyStr.rstrip (PyStr.rstrip s) = PyStr.rstrip s.
Proof.
  induction s as [| c s IH]; [reflexivity |].
  cbn [PyStr.rstrip]. destruct (PyStr.rstrip s) as [| c' r'] eqn:Hr.
  - destruct (PyStr.isspace c) eqn:Hc; [reflexivity |].
    cbn [PyStr.rstrip]. now rewrite Hc.
  - change (PyStr.rstrip (String c (String c' r')))
      with (match PyStr.rstrip (String c' r') with
            | EmptyString =>
                if PyStr.isspace c then EmptyString else String c EmptyString
            | r => String c r
            end).
    now rewrite IH.
Qed.

Lemma strip_idem (s : string) : PyStr.strip (PyStr.strip s) = PyStr.strip s.
Proof.
  change (PyStr.rstrip (PyStr.lstrip (PyStr.rstrip (PyStr.lstrip s)))
          = PyStr.rstrip (PyStr.lstrip s)).
  rewrite (@lstrip_rstrip (PyStr.lstrip s) (lstrip_idem s)). apply rstrip_idem.
Qed.

(** X16. The label app.py and app1.py return is in normal form. For a reply
    of any status outside 400..599 (1xx and 3xx included) whose text is a
    string t, both answer 200 with label = t.strip().lower(): stripping or
    lower-casing the label again changes nothing, so it has no white space at
    either end and no capital letter, and it is empty exactly when t is all
    white space. *)
Theorem X16_label_normal_form :
  forall (p : provider) (key : option string) (d : list (string * json))
         (m : json) (r : response) (j : json) (t : string),
    Py.truthy_env key = true ->
    Py.lookup "message" d = Some m ->
    Py.truthy m = true ->
    always p r ->
    error_status (status_code r) = false ->
    json_body r = inr j ->
    subscripts j gemini_text = inr (JStr t) ->
    let label := PyStr.lower (PyStr.strip t) in
    answer (App.get_sentiment_route p (Body (JObj d))) (App.load key)
    = inr (200, obj1 "sentiment" label)
    /\ answer (App1.get_sentiment_route p (Body (JObj d))) (App1.load key)
       = inr (200, obj1 "sentiment" label)
    /\ PyStr.strip label = label
    /\ PyStr.lower label = label
    /\ (label = EmptyString <-> all_space t = true).
Proof.
  intros p key d m r j t Hk Hm Ht Hp Hs Hb Hj label. unfold label.
  split; [| split; [| split; [| split]]].
  - exact (@App_text p (App.load key) d m Hk Hm r j Hp Hs Hb t Hj).
  - exact (@App1_text p (App1.load key) d m Hk Hm Ht r j Hp Hs Hb t Hj).
  - now rewrite strip_lower, strip_idem.
  - apply lower_idem.
  - rewrite <- strip_empty. split.
    + intro H. destruct (PyStr.strip t); [reflexivity |].
      rewrite lower_cons in H. discriminate H.
    + intros ->. reflexivity.
Qed.

Lemma X16_label_normal_form_witness :
  error_status 304 = false
  /\ answer (App.get_sentiment_route
               (replying (document 304 "Not Modified" (gemini_reply (JStr "  Happy! "))))
               (saying "hello"))
       (App.load (Some "secret"))
     = inr (200, obj1 "sentiment" "happy!").
Proof.
  split.
  - reflexivity.
  - refine (proj1 (@X16_label_normal_form
                     (replying (document 304 "Not Modified" (gemini_reply (JStr "  Happy! "))))
                     (Some "secret") [("message", JStr "hello")] (JStr "hello")
                     (document 304 "Not Modified" (gemini_reply (JStr "  Happy! ")))
                     (gemini_reply (JStr "  Happy! ")) "  Happy! " _ _ _ _ _ _ _)).
    + reflexivity.
    + reflexivity.
    + reflexivity.
    + intros target headers payload. reflexivity.
    + reflexivity.
    + reflexivity.
    + reflexivity.
Defined.

Lemma main_label_exact (t : string) :
  main_label t
  = if (PyStr.lower (PyStr.strip t) =? "sad")%string then "sad" else "happy".
Proof.
  unfold main_label. cbn [existsb].
  destruct (String.eqb_spec (PyStr.lower (PyStr.strip t)) "happy") as [-> | Hh];
    [reflexivity |].
  destruct (String.eqb_spec (PyStr.lower (PyStr.strip t)) "sad") as [-> | Hs];
    reflexivity.
Qed.

(** X17. main.py, once the provider has replied with a JSON document (under
    any status): the answer is decided by the extraction
    get(choices, [{}])[0].get(message, {}).get(content, "").strip() alone.
    When it yields a string, the answer is 200 with sad if that string
    lower-cased is exactly sad, and 200 with happy in every other case; when
    it raises (an empty choices list, a choice that is not an object, a
    content that is not a string), the answer is 500 with the exception's
    text and sentiment happy. *)
Theorem X17_main_reply_document :
  forall (p : provider) (key : option string) (d : list (string * json))
         (m : json) (r : response) (j : json),
    Py.lookup "message" d = Some m ->
    Py.truthy m = true ->
    always p r ->
    json_body r = inr j ->
    answer (Main.get_sentiment p (Body (JObj d))) (Main.load key)
    = main_of_extract (main_extract j).
Proof.
  intros p key d m r j Hm Ht Hp Hb. unfold main_of_extract, main_extract.
  destruct (Main.content j) as [e | text] eqn:Hc.
  - exact (@Main_error p (Main.load key) d m Hm Ht r j Hp Hb e Hc).
  - destruct text;
      try (unfold Main.get_sentiment; run; run_with Hm; run_with Ht; run_with Hp;
           run_with Hb; run_with Hc; reflexivity).
    rewrite (@Main_text p (Main.load key) d m Hm Ht r j Hp Hb s Hc).
    now rewrite main_label_exact.
Qed.

Lemma X17_main_reply_document_witness :
  Py.truthy (JStr "hello") = true
  /\ answer (Main.get_sentiment
               (replying (document 200 "OK" (JObj [("choices", JArr [])]))) (saying "hello"))
       (Main.load (Some "secret"))
     = inr (500, obj2 "error" "list index out of range" "sentiment" "happy").
Proof.
  split.
  - reflexivity.
  - refine (@X17_main_reply_document
              (replying (document 200 "OK" (JObj [("choices", JArr [])])))
              (Some "secret") [("message", JStr "hello")] (JStr "hello")
              (document 200 "OK" (JObj [("choices", JArr [])]))
              (JObj [("choices", JArr [])]) _ _ _ _).
    + reflexivity.
    + reflexivity.
    + intros target headers payload. reflexivity.
    + reflexivity.
Defined.

(** ** The two Gemini variants side by side *)

(** X18. With a key and a truthy message, the sentiment routes of app.py and
    app1.py give the same answer to the same request whenever requests.post
    does the same with their two outbound requests (the two differ in the
    model named in the URL and in the layout of the system prompt). *)
Theorem X18_variants_agree :
  forall (p : provider) (key : option string) (d : list (string * json)) (m : json),
    Py.truthy_env key = true ->
    Py.lookup "message" d = Some m ->
    Py.truthy m = true ->
    p (App1.GEMINI_API_URL (App1.load key)) [] (gemini_payload m App1.sentiment_prompt)
    = p (App.GEMINI_API_URL (App.load key)) []
        (gemini_payload m (App.SYSTEM_PROMPT (App.load key))) ->
    answer (App1.get_sentiment_route p (Body (JObj d))) (App1.load key)
    = answer (App.get_sentiment_route p (Body (JObj d))) (App.load key).
Proof.
  intros p key d m Hk Hm Ht.
  assert (Ha : Py.truthy_env (App.GEMINI_API_KEY (App.load key)) = true) by exact Hk.
  assert (Hb1 : Py.truthy_env (App1.GEMINI_API_KEY (App1.load key)) = true) by exact Hk.
  revert Ha Hb1. generalize (App.load key) (App1.load key). intros g g1 Ha Hb1 Hp.
  unfold App.get_sentiment_route, App1.get_sentiment_route. run.
  rewrite Ha, Hb1. run. rewrite (truthy_of_lookup _ _ Hm). run. rewrite Hm. run.
  rewrite Ht. run. rewrite Hp.
  crunch; reflexivity.
Qed.

Lemma X18_variants_agree_witness :
  Py.truthy (JStr "hello") = true
  /\ answer (App1.get_sentiment_route
               (replying (document 200 "OK" (gemini_reply (JStr "Sad")))) (saying "hello"))
       (App1.load (Some "secret"))
     = answer (App.get_sentiment_route
                 (replying (document 200 "OK" (gemini_reply (JStr "Sad")))) (saying "hello"))
         (App.load (Some "secret")).
Proof.
  split.
  - reflexivity.
  - exact (@X18_variants_agree (replying (document 200 "OK" (gemini_reply (JStr "Sad"))))
             (Some "secret") [("message", JStr "hello")] (JStr "hello")
             eq_refl eq_refl eq_refl eq_refl).
Defined.
